(** * Statement ingestion pipeline of the hustle page

    A shallow embedding of the statement import code of [app.py]:
    the GTBank PDF table extractor [parse_gtbank_pdf_to_rows], the CSV
    branch of [page_hustle], the review table built from an imported
    statement and the handler of the save button.

    Text is [string] (code points below 256), Python floats are the
    IEEE-754 binary64 values of [SpecFloat], a cell that pdfplumber or
    [csv.DictReader] reports as [None] is [None : option string]. *)

From Stdlib Require Import ZArith Ascii String SpecFloat Lia.
From stdpp Require Import base option list strings pretty gmap sorting.

Local Open Scope string_scope.
Local Open Scope list_scope.
Local Open Scope nat_scope.

(** ** Python text operations *)

Module PyStr.

(** [str.isspace] on one character, for code points below 256:
    TAB..CR, FS..US, SPACE, NEL and NBSP. *)
Definition is_space (c : ascii) : bool :=
  let n := N_of_ascii c in
  (((9 <=? n) && (n <=? 13)) || ((28 <=? n) && (n <=? 32))
   || (n =? 133) || (n =? 160))%N.

Fixpoint lstrip (s : string) : string :=
  match s with
  | EmptyString => EmptyString
  | String c t => if is_space c then lstrip t else s
  end.

Fixpoint rstrip (s : string) : string :=
  match s with
  | EmptyString => EmptyString
  | String c t =>
      match rstrip t with
      | EmptyString => if is_space c then EmptyString else String c EmptyString
      | r => String c r
      end
  end.

(** [s.strip()] *)
Definition strip (s : string) : string := rstrip (lstrip s).

(** [s.replace(",", "")] *)
Fixpoint remove_commas (s : string) : string :=
  match s with
  | EmptyString => EmptyString
  | String c t =>
      if Ascii.eqb c "," then remove_commas t else String c (remove_commas t)
  end.

(** [needle in hay] *)
Fixpoint contains (needle hay : string) : bool :=
  match hay with
  | EmptyString => String.prefix needle EmptyString
  | String _ t => String.prefix needle hay || contains needle t
  end.

(** [sep.join(parts)] *)
Fixpoint join (sep : string) (parts : list string) : string :=
  match parts with
  | [] => EmptyString
  | [p] => p
  | p :: ps => p +:+ sep +:+ join sep ps
  end.

(** Truth value of a string: [bool(s)]. *)
Definition truthy (s : string) : bool :=
  match s with EmptyString => false | String _ _ => true end.

(** [x or ""] for an optional string. *)
Definition or_empty (x : option string) : string :=
  match x with Some s => s | None => EmptyString end.

(** A text that does not start with white space. *)
Definition lstripped (s : string) : Prop :=
  match s with
  | EmptyString => True
  | String c _ => is_space c = false
  end.

End PyStr.

(** ** Python floats *)

Module PyFloat.

Local Open Scope Z_scope.

Definition float := spec_float.

Definition prec : Z := 53.
Definition emax : Z := 1024.

Definition zero : float := S754_zero false.

(** [x > y], [x == y], [x >= y] on floats; every comparison with a NaN
    is false and the two zeros are equal. *)
Definition gt (x y : float) : bool := SFltb y x.
Definition eq (x y : float) : bool := SFeqb x y.
Definition ge (x y : float) : bool := SFleb y x.

Definition is_digit (c : ascii) : bool :=
  let n := N_of_ascii c in ((48 <=? n) && (n <=? 57))%N.

Definition digit_val (c : ascii) : Z := Z.of_N (N_of_ascii c) - 48.

(** The tail of a digit part: [(["_"] digit)*]. *)
Fixpoint digits_tail (s : string) : list Z * string :=
  match s with
  | EmptyString => ([], EmptyString)
  | String c t =>
      if is_digit c then
        let (ds, r) := digits_tail t in (digit_val c :: ds, r)
      else if Ascii.eqb c "_" then
        match t with
        | String d t' =>
            if is_digit d then
              let (ds, r) := digits_tail t' in (digit_val d :: ds, r)
            else ([], s)
        | EmptyString => ([], s)
        end
      else ([], s)
  end.

(** An optional digit part [digit (["_"] digit)*]; no digits read when
    the text does not start with a digit. *)
Definition digitpart (s : string) : list Z * string :=
  match s with
  | String c t =>
      if is_digit c then
        let (ds, r) := digits_tail t in (digit_val c :: ds, r)
      else ([], s)
  | EmptyString => ([], s)
  end.

Definition digits_value (ds : list Z) : Z :=
  fold_left (fun acc d => 10 * acc + d) ds 0.

(** An optional sign; [true] is minus. *)
Definition sign (s : string) : bool * string :=
  match s with
  | String "-" t => (true, t)
  | String "+" t => (false, t)
  | _ => (false, s)
  end.

(** The exponent part, if any; the text must end after it. *)
Definition exponent (s : string) : option Z :=
  match s with
  | EmptyString => Some 0
  | String c t =>
      if Ascii.eqb c "e" || Ascii.eqb c "E" then
        let (neg, t1) := sign t in
        match digitpart t1 with
        | ((_ :: _) as ds, EmptyString) =>
            Some (if neg then - digits_value ds else digits_value ds)
        | _ => None
        end
      else None
  end.

(** The double nearest to [(-1)^neg * m * 10^e], ties to even. *)
Definition of_decimal (neg : bool) (m : Z) (e : Z) : float :=
  match m with
  | Zpos p =>
      match e with
      | Zneg k =>
          SFdiv prec emax (S754_finite neg p 0)
                (S754_finite false (Pos.pow 10 k) 0)
      | _ => binary_normalize prec emax
               (if neg then - (m * 10 ^ e) else m * 10 ^ e) 0 false
      end
  | _ => S754_zero neg
  end.

Definition lower (c : ascii) : ascii :=
  let n := N_of_ascii c in
  if ((65 <=? n) && (n <=? 90))%N then ascii_of_N (n + 32) else c.

Fixpoint lowercase (s : string) : string :=
  match s with
  | EmptyString => EmptyString
  | String c t => String (lower c) (lowercase t)
  end.

(** The white space that [float] ignores around a number, for code
    points below 256: TAB..CR and SPACE, and NEL and NBSP, which [float]
    reads as spaces.  FS..US, which [str.strip] removes, are not
    ignored. *)
Definition is_space (c : ascii) : bool :=
  let n := N_of_ascii c in
  (((9 <=? n) && (n <=? 13)) || (n =? 32) || (n =? 133) || (n =? 160))%N.

Fixpoint lstrip (s : string) : string :=
  match s with
  | EmptyString => EmptyString
  | String c t => if is_space c then lstrip t else s
  end.

Fixpoint rstrip (s : string) : string :=
  match s with
  | EmptyString => EmptyString
  | String c t =>
      match rstrip t with
      | EmptyString => if is_space c then EmptyString else String c EmptyString
      | r => String c r
      end
  end.

(** [float(s)]: [None] stands for [ValueError]. *)
Definition of_string (s : string) : option float :=
  let (neg, body) := sign (rstrip (lstrip s)) in
  let low := lowercase body in
  if String.eqb low "inf" || String.eqb low "infinity" then
    Some (S754_infinity neg)
  else if String.eqb low "nan" then Some S754_nan
  else
    let (ip, r1) := digitpart body in
    let (fp, r2) :=
      match r1 with
      | String "." t => digitpart t
      | _ => ([], r1)
      end in
    match ip ++ fp with
    | [] => None
    | ds =>
        match exponent r2 with
        | Some e => Some (of_decimal neg (digits_value ds)
                                     (e - Z.of_nat (length fp)))
        | None => None
        end
    end.

End PyFloat.

Import PyStr.
Abbreviation float := PyFloat.float.

(** ** Rows sent to the import service and rows shown in the preview *)

(** One entry of [backend_rows]:
    [{date, description, amount, direction, reference, counterparty}]. *)
Record backend_row := BackendRow {
  b_date : string;
  b_description : string;
  b_amount : float;
  b_direction : string;
  b_reference : option string;
  b_counterparty : option string
}.

(** One entry of [preview_rows] of the PDF extractor. *)
Record pdf_preview_row := PdfPreviewRow {
  pp_date : string;
  pp_reference : string;
  pp_value_date : string;
  pp_debit : float;
  pp_credit : float;
  pp_balance : string;
  pp_remarks : string;
  pp_mapped_direction : string;
  pp_mapped_amount : float
}.

(** One entry of [preview_rows] of the CSV branch. *)
Record csv_preview_row := CsvPreviewRow {
  cp_date : string;
  cp_description : string;
  cp_debit : float;
  cp_credit : float;
  cp_mapped_direction : string;
  cp_mapped_amount : float
}.

(** [float(s) if s not in ("", None) else 0.0], with [ValueError] caught
    and replaced by [0.0]. *)
Definition parse_amount (s : string) : float :=
  if truthy s then default PyFloat.zero (PyFloat.of_string s)
  else PyFloat.zero.

(** [x or None] for a string. *)
Definition or_none (s : string) : option string :=
  if truthy s then Some s else None.

(** ** The PDF extractor *)

(** A cell of a pdfplumber table is a string or [None]; a row is a list
    of cells, a table a list of rows, [page.extract_tables()] a list of
    tables. *)
Definition pdf_cell : Type := option string.
Definition pdf_table_row : Type := list pdf_cell.
Definition pdf_table : Type := list pdf_table_row.

(** [row[i] or ""]; the source indexes only below [len(row)]. *)
Definition cell_text (row : pdf_table_row) (i : nat) : string :=
  or_empty (default None (row !! i)).

(** [" ".join([cell or "" for cell in row])] *)
Definition joined (row : pdf_table_row) : string :=
  join " " (or_empty <$> row).

(** The header test of the row loop. *)
Definition is_header_row (row : pdf_table_row) : bool :=
  contains "Trans" (joined row) && contains "Debit" (joined row).

(** The description of a PDF row, from its stripped reference and
    remarks. *)
Definition pdf_description (reference remarks : string) : string :=
  let desc_parts := [reference; remarks] in
  let description := strip (join " " (filter (λ p, truthy p) desc_parts)) in
  if truthy description then description
  else if truthy reference then reference
  else if truthy remarks then remarks
  else "".

(** The body of [for row in table]: [None] when the row is skipped by a
    [continue], otherwise the preview row and the backend row that are
    appended. *)
Definition pdf_row (row : pdf_table_row)
  : option (pdf_preview_row * backend_row) :=
  match row with
  | [] => None
  | _ =>
    if is_header_row row then None
    else if bool_decide (length row < 5) then None
    else
      let trans_date := strip (cell_text row 0) in
      let reference := strip (cell_text row 1) in
      let value_date := strip (cell_text row 2) in
      let debit_str := strip (remove_commas (cell_text row 3)) in
      let credit_str := strip (remove_commas (cell_text row 4)) in
      let balance :=
        if bool_decide (5 < length row) then strip (cell_text row 5) else "" in
      let remarks :=
        if bool_decide (6 < length row) then strip (cell_text row 6) else "" in
      if negb (truthy trans_date) then None
      else
        let debit := parse_amount debit_str in
        let credit := parse_amount credit_str in
        if PyFloat.eq debit PyFloat.zero && PyFloat.eq credit PyFloat.zero
        then None
        else
          let description := pdf_description reference remarks in
          let '(direction, amount) :=
            if PyFloat.gt credit PyFloat.zero then ("INCOME", credit)
            else ("EXPENSE", debit) in
          Some (PdfPreviewRow trans_date reference value_date debit credit
                              balance remarks direction amount,
                BackendRow trans_date description amount direction
                           (or_none reference) None)
  end.

(** The two accumulators [preview_rows] and [backend_rows]. *)
Definition pdf_acc : Type := list pdf_preview_row * list backend_row.

Definition pdf_row_step (acc : pdf_acc) (row : pdf_table_row) : pdf_acc :=
  match pdf_row row with
  | None => acc
  | Some (p, b) => (acc.1 ++ [p], acc.2 ++ [b])
  end.

Definition pdf_table_step (acc : pdf_acc) (table : pdf_table) : pdf_acc :=
  match table with
  | [] => acc
  | _ => foldl pdf_row_step acc table
  end.

Definition pdf_page_step (acc : pdf_acc) (tables : list pdf_table) : pdf_acc :=
  match tables with
  | [] => acc
  | _ => foldl pdf_table_step acc tables
  end.

(** [parse_gtbank_pdf_to_rows], on the tables that pdfplumber extracts
    from each page of the opened file. *)
Definition parse_gtbank_pdf_to_rows (pages : list (list pdf_table)) : pdf_acc :=
  foldl pdf_page_step ([], []) pages.

(** All rows of all tables of all pages, in reading order. *)
Definition pdf_input_rows (pages : list (list pdf_table)) : list pdf_table_row :=
  concat (concat pages).

(** The parsed debit and credit of a PDF row (cells 3 and 4) and its
    stripped text fields, as the loop body computes them. *)
Definition pdf_debit (row : pdf_table_row) : float :=
  parse_amount (strip (remove_commas (cell_text row 3))).
Definition pdf_credit (row : pdf_table_row) : float :=
  parse_amount (strip (remove_commas (cell_text row 4))).
Definition pdf_date (row : pdf_table_row) : string :=
  strip (cell_text row 0).
Definition pdf_reference (row : pdf_table_row) : string :=
  strip (cell_text row 1).
Definition pdf_remarks (row : pdf_table_row) : string :=
  if bool_decide (6 < length row) then strip (cell_text row 6) else "".

(** A PDF row without a money movement. *)
Definition pdf_zero_movement (row : pdf_table_row) : Prop :=
  PyFloat.eq (pdf_debit row) PyFloat.zero = true
  ∧ PyFloat.eq (pdf_credit row) PyFloat.zero = true.

(** ** The CSV branch of [page_hustle] *)

(** The dictionary [csv.DictReader] builds for one record: a record
    shorter than the header is padded with [None], and where a field name
    is repeated the last value wins. *)
Definition csv_dict (fieldnames : list string) (record : list string)
  : gmap string (option string) :=
  foldl (λ d kv, <[kv.1 := kv.2]> d) ∅
        (zip fieldnames
             ((Some <$> record)
                ++ replicate (length fieldnames - length record) None)).

(** The rows [for row in reader] iterates over: [DictReader] skips the
    records that are empty lists. *)
Definition dict_reader (fieldnames : option (list string))
    (records : list (list string)) : list (gmap string (option string)) :=
  csv_dict (default [] fieldnames)
    <$> filter (λ record, record ≠ []) records.

(** [row.get(key) or ""] *)
Definition csv_field (row : gmap string (option string)) (key : string)
  : string :=
  or_empty (default None (row !! key)).

Definition required_cols : gset string :=
  {["date"; "description"; "debit"; "credit"]}.

(** [required_cols - set(reader.fieldnames or [])] *)
Definition missing_cols (fieldnames : option (list string)) : gset string :=
  required_cols ∖ list_to_set (default [] fieldnames).

(** The order of [sorted] on strings. *)
Definition str_le (a b : string) : Prop := String.leb a b = true.

#[global] Instance str_le_dec : RelDecision str_le.
Proof. intros a b. unfold str_le. apply _. Defined.

(** [sorted(s)] for a set of strings. *)
Definition sorted (s : gset string) : list string :=
  merge_sort str_le (elements s).

Definition missing_message (missing : gset string) : string :=
  "CSV is missing required columns: " +:+ join ", " (sorted missing)
    +:+ ". "
    +:+ "Make sure the header row includes: date, description, debit, credit.".

(** The body of [for row in reader]. *)
Definition csv_row (row : gmap string (option string))
  : option (csv_preview_row * backend_row) :=
  let date_str := strip (csv_field row "date") in
  let desc := strip (csv_field row "description") in
  let debit_str := strip (remove_commas (csv_field row "debit")) in
  let credit_str := strip (remove_commas (csv_field row "credit")) in
  if negb (truthy date_str) || negb (truthy desc) then None
  else
    let debit := parse_amount debit_str in
    let credit := parse_amount credit_str in
    let emit (direction : string) (amount : float) :=
      Some (CsvPreviewRow date_str desc debit credit direction amount,
            BackendRow date_str desc amount direction None None) in
    if PyFloat.gt credit PyFloat.zero then emit "INCOME" credit
    else if PyFloat.gt debit PyFloat.zero then emit "EXPENSE" debit
    else None.

Definition csv_acc : Type := list csv_preview_row * list backend_row.

Definition csv_row_step (acc : csv_acc) (row : gmap string (option string))
  : csv_acc :=
  match csv_row row with
  | None => acc
  | Some (p, b) => (acc.1 ++ [p], acc.2 ++ [b])
  end.

(** What the CSV branch ends with: the error shown before [return], or
    the two row lists. *)
Inductive csv_outcome :=
| CsvError (msg : string)
| CsvRows (preview_rows : list csv_preview_row) (backend_rows : list backend_row).

(** The CSV branch, on the header and the records that [csv.DictReader]
    reads from the decoded file ([fieldnames] is [None] for a file with
    no record at all). *)
Definition csv_extract (fieldnames : option (list string))
    (records : list (list string)) : csv_outcome :=
  let missing := missing_cols fieldnames in
  if decide (missing = ∅) then
    let acc := foldl csv_row_step ([], []) (dict_reader fieldnames records) in
    CsvRows acc.1 acc.2
  else CsvError (missing_message missing).

(** The parsed debit and credit of a CSV row and its stripped text
    fields. *)
Definition csv_debit (row : gmap string (option string)) : float :=
  parse_amount (strip (remove_commas (csv_field row "debit"))).
Definition csv_credit (row : gmap string (option string)) : float :=
  parse_amount (strip (remove_commas (csv_field row "credit"))).
Definition csv_date (row : gmap string (option string)) : string :=
  strip (csv_field row "date").
Definition csv_desc (row : gmap string (option string)) : string :=
  strip (csv_field row "description").

(** A CSV row without a money movement. *)
Definition csv_zero_movement (row : gmap string (option string)) : Prop :=
  PyFloat.eq (csv_debit row) PyFloat.zero = true
  ∧ PyFloat.eq (csv_credit row) PyFloat.zero = true.

(** ** Review of an imported statement *)

Definition CATEGORY_OPTIONS : list string :=
  ["SALES"; "STOCK"; "FUEL"; "DATA_AIRTIME"; "RENT"; "EQUIPMENT";
   "TRANSPORT"; "FOOD"; "MISC"].

(** A row of the statement returned by the import service; a field is
    [None] when the key is absent or null. *)
Record imported_row := ImportedRow {
  r_id : option string;
  r_dateRaw : option string;
  r_descriptionRaw : option string;
  r_amountRaw : option string;
  r_directionSuggested : option string;
  r_categorySuggested : option string;
  r_source : option string;
  r_confidence : option float
}.

Record statement := Statement {
  s_id : option string;
  s_rows : option (list imported_row)
}.

(** A row of the editable table; a cell of the [id], [direction] or
    [category] column is [None] when it holds no value. *)
Record editor_row := EditorRow {
  e_import : bool;
  e_id : option string;
  e_date : option string;
  e_description : option string;
  e_amount : float;
  e_direction : option string;
  e_category : option string;
  e_source : option string;
  e_confidence : option float
}.

(** [x or d] for an optional string [x]. *)
Definition or_default (x : option string) (d : string) : string :=
  match x with
  | Some s => if truthy s then s else d
  | None => d
  end.

(** Truth value of an optional string. *)
Definition opt_truthy (x : option string) : bool :=
  match x with Some s => truthy s | None => false end.

(** The body of [for r in rows]. *)
Definition editor_row_of (r : imported_row) : editor_row :=
  let amount :=
    match r_amountRaw r with
    | Some s =>
        if truthy s then default PyFloat.zero (PyFloat.of_string s)
        else PyFloat.zero
    | None => PyFloat.zero
    end in
  let direction := or_default (r_directionSuggested r) "INCOME" in
  let suggested_category := or_default (r_categorySuggested r) "MISC" in
  let category :=
    if bool_decide (suggested_category ∉ CATEGORY_OPTIONS) then "MISC"
    else suggested_category in
  EditorRow true (r_id r) (r_dateRaw r) (r_descriptionRaw r) amount
            (Some direction) (Some category) (r_source r) (r_confidence r).

Definition data_for_editor (rows : list imported_row) : list editor_row :=
  foldl (λ acc r, acc ++ [editor_row_of r]) [] rows.

(** The table handed to the editor for a statement: nothing is built
    when the statement has no rows. *)
Definition review_table (st : statement) : list editor_row :=
  match default [] (s_rows st) with
  | [] => []
  | rows => data_for_editor rows
  end.

(** ** The save button *)

Record confirm_item := ConfirmItem {
  importedTransactionId : string;
  finalType : string;
  finalCategory : string;
  note : option string
}.

(** A cell of a row of [edited_df] as [iterrows] yields it: a string,
    [None], or the NaN by which pandas stands for a missing value. *)
Inductive cell :=
| CellNone
| CellNaN
| CellStr (s : string).

(** Truth value of a cell: NaN is a float that is not zero. *)
Definition cell_truthy (c : cell) : bool :=
  match c with
  | CellNone => false
  | CellNaN => true
  | CellStr s => truthy s
  end.

(** [str(c)] *)
Definition cell_str (c : cell) : string :=
  match c with
  | CellNone => "None"
  | CellNaN => "nan"
  | CellStr s => s
  end.

(** A row of [edited_df], the table that [st.data_editor] returns for
    the data frame made of [data_for_editor]: the four columns that the
    save button reads. *)
Record edited_row := EditedRow {
  d_import : bool;
  d_id : cell;
  d_direction : cell;
  d_category : cell
}.

(** The body of [for _, row in edited_df.iterrows()]. *)
Definition confirm_item_of (row : edited_row) : option confirm_item :=
  if negb (d_import row) then None
  else
    let tx_id := d_id row in
    let final_type := d_direction row in
    let final_category := d_category row in
    if negb (cell_truthy tx_id) || negb (cell_truthy final_type)
       || negb (cell_truthy final_category)
    then None
    else Some (ConfirmItem (cell_str tx_id) (cell_str final_type)
                           (cell_str final_category) None).

Definition commit_items (edited_df : list edited_row) : list confirm_item :=
  foldl (λ items row,
           match confirm_item_of row with
           | None => items
           | Some item => items ++ [item]
           end) [] edited_df.

(** A row of the edited table reduced to a confirm item. *)
Definition reduced (row : edited_row) : confirm_item :=
  ConfirmItem (cell_str (d_id row)) (cell_str (d_direction row))
              (cell_str (d_category row)) None.

(** The rows that reach the payload: ticked, and with an id, a type and
    a category that are true as Python values. *)
Definition committable (row : edited_row) : bool :=
  d_import row && cell_truthy (d_id row) && cell_truthy (d_direction row)
  && cell_truthy (d_category row).

(** ** Effects of the page

    What the user sees and what is sent to the backend is kept as a log of
    events next to the session state; a handler is a function on this
    world. *)

Inductive ui_event :=
| StWarning (msg : string)
| StError (msg : string)
| StWrite (details : string)
| StSuccess (msg : string)
| ConfirmCall (statement_id : option string) (items : list confirm_item).

(** The value of a failed call: a dictionary with the key [error], of
    which [str(error.get("error"))] and the details, if any, are kept; or
    any other value, of which [str(error)] is kept. *)
Inductive api_error :=
| ApiError (err_error : string) (err_details : option string)
| ApiOther (text : string).

(** The body of a successful confirm response: [createdCount] is [None]
    when the key is absent and [Some None] when its value is null. *)
Record confirm_result := ConfirmResult {
  createdCount : option (option N)
}.

(** [result.get('createdCount', 0)] as the f-string writes it. *)
Definition created_count_text (result : confirm_result) : string :=
  match createdCount result with
  | None => "0"
  | Some None => "None"
  | Some (Some n) => pretty n
  end.

Record session_state := SessionState {
  last_statement_import : option statement
}.

Record world := World {
  w_session : session_state;
  w_events : list ui_event
}.

Definition ui (A : Type) : Type := world → A * world.

#[global] Instance ui_ret : MRet ui := λ A a w, (a, w).

#[global] Instance ui_bind : MBind ui :=
  λ A B k m w, let '(a, w') := m w in k a w'.

Definition emit (e : ui_event) : ui unit :=
  λ w, (tt, World (w_session w) (w_events w ++ [e])).

(** The confirm service as the page sees it through
    [client.confirm_statement]: [inl] is [(False, error)], [inr] is
    [(True, result)]. *)
Definition confirm_service : Type :=
  option string → list confirm_item → api_error + confirm_result.

Definition call_confirm (backend : confirm_service)
    (statement_id : option string) (items : list confirm_item)
  : ui (api_error + confirm_result) :=
  emit (ConfirmCall statement_id items);;
  mret (backend statement_id items).

Definition show_api_error (error : api_error) : ui unit :=
  match error with
  | ApiError err_error details =>
      emit (StError err_error);;
      if opt_truthy details then emit (StWrite (or_empty details))
      else mret tt
  | ApiOther text => emit (StError text)
  end.

(** The handler of the button that saves the selected rows. *)
Definition on_save_click (backend : confirm_service) (st : statement)
    (edited_df : list edited_row) : ui unit :=
  let items := commit_items edited_df in
  match items with
  | [] => emit (StWarning "No rows selected for import.")
  | _ =>
      r ← call_confirm backend (s_id st) items;
      match r with
      | inr result =>
          emit (StSuccess ("Imported " +:+ created_count_text result
                             +:+ " transactions into your hustle."))
      | inl error => show_api_error error
      end
  end.

(** Whether an event is a call to the confirm service. *)
Definition is_confirm_call (e : ui_event) : bool :=
  match e with ConfirmCall _ _ => true | _ => false end.

(** ** Relations between a preview row and the backend row emitted with it *)

(** What a PDF preview row and the backend row appended with it share. *)
Definition pdf_rows_agree (p : pdf_preview_row) (b : backend_row) : Prop :=
  b_date b = pp_date p
  ∧ b_direction b = pp_mapped_direction p
  ∧ b_amount b = pp_mapped_amount p
  ∧ b_description b = pdf_description (pp_reference p) (pp_remarks p)
  ∧ b_reference b = or_none (pp_reference p)
  ∧ b_counterparty b = None
  ∧ (pp_mapped_direction p, pp_mapped_amount p)
    = (if PyFloat.gt (pp_credit p) PyFloat.zero
       then ("INCOME", pp_credit p) else ("EXPENSE", pp_debit p)).

(** What a CSV preview row and the backend row appended with it share. *)
Definition csv_rows_agree (p : csv_preview_row) (b : backend_row) : Prop :=
  b_date b = cp_date p
  ∧ b_description b = cp_description p
  ∧ b_direction b = cp_mapped_direction p
  ∧ b_amount b = cp_mapped_amount p
  ∧ b_reference b = None
  ∧ b_counterparty b = None
  ∧ ((cp_mapped_direction p = "INCOME" ∧ cp_mapped_amount p = cp_credit p)
     ∨ (cp_mapped_direction p = "EXPENSE" ∧ cp_mapped_amount p = cp_debit p
        ∧ PyFloat.gt (cp_credit p) PyFloat.zero = false)).

(** A backend row as the CSV branch lets it through: stripped non-empty
    date and description, an amount greater than zero. *)
Definition csv_backend_row_ok (b : backend_row) : Prop :=
  b_date b ≠ "" ∧ strip (b_date b) = b_date b
  ∧ b_description b ≠ "" ∧ strip (b_description b) = b_description b
  ∧ PyFloat.gt (b_amount b) PyFloat.zero = true
  ∧ (b_direction b = "INCOME" ∨ b_direction b = "EXPENSE").

(** ** More Python text operations *)

Module PyText.

(** [c.lower()] for a code point below 256: A..Z and the capital letters
    from 192 to 222 (215, the multiplication sign, is not one) move up by
    32. *)
Definition lower_char (c : ascii) : ascii :=
  let n := N_of_ascii c in
  if (((65 <=? n) && (n <=? 90))
      || ((192 <=? n) && (n <=? 222) && negb (n =? 215)))%N
  then ascii_of_N (n + 32) else c.

(** [s.lower()] *)
Fixpoint lower (s : string) : string :=
  match s with
  | EmptyString => EmptyString
  | String c t => String (lower_char c) (lower t)
  end.

(** [s.endswith(suffix)] *)
Fixpoint endswith (s suffix : string) : bool :=
  String.eqb s suffix
  || match s with
     | EmptyString => false
     | String _ t => endswith t suffix
     end.

(** [s.rstrip("/")] *)
Fixpoint rstrip_slash (s : string) : string :=
  match s with
  | EmptyString => EmptyString
  | String c t =>
      match rstrip_slash t with
      | EmptyString => if Ascii.eqb c "/" then EmptyString else String c EmptyString
      | r => String c r
      end
  end.

End PyText.

(** ** The upload part of the statement tab *)

(** What [st.dataframe] is given: the preview rows of one of the two
    extractors. *)
Inductive preview_rows :=
| CsvPreview (rows : list csv_preview_row)
| PdfPreview (rows : list pdf_preview_row).

(** The body of the request to the import service. *)
Record import_payload := ImportPayload {
  ip_source : string;
  ip_fileName : string;
  ip_rows : list backend_row
}.

(** What the upload part shows and sends; headings and explanatory
    markdown are left out.  [PRaises] is the exception that leaves the
    page when nothing catches it. *)
Inductive page_event :=
| PUi (e : ui_event)
| PInfo (msg : string)
| PDataframe (rows : preview_rows)
| PImportCall (hustle_id : string) (payload : import_payload)
| PRaises (e : string).

(** The import service as the page sees it through
    [client.import_statement]. *)
Definition import_service : Type :=
  string → import_payload → api_error + statement.

(** The events of [show_api_error]. *)
Definition show_api_error_events (error : api_error) : list ui_event :=
  match error with
  | ApiError err_error details =>
      StError err_error
        :: (if opt_truthy details then [StWrite (or_empty details)] else [])
  | ApiOther text => [StError text]
  end.

(** What [csv.DictReader] makes of the decoded text: the header ([None]
    for a file without any record) and the records; or the [_csv.Error]
    that it raises, either when [reader.fieldnames] reads the header, or
    in the loop over the records, after the header was read. *)
Inductive csv_read :=
| CsvRead (fieldnames : option (list string)) (records : list (list string))
| CsvHeaderRaises (e : string)
| CsvRecordRaises (fieldnames : option (list string)) (e : string).

(** The rows of an uploaded file: the message of the [st.error] that
    precedes a [return], the exception that nothing catches, or the
    preview rows and the backend rows. *)
Inductive read_result :=
| ReadError (msg : string)
| ReadRaises (e : string)
| ReadRows (preview : preview_rows) (backend : list backend_row).

Section upload.

(** The two libraries that read the uploaded bytes: [csv.DictReader] on
    the decoded text; pdfplumber, which gives the tables of each page or
    raises an exception with a message. *)
Context {bytes : Type}.
Variable csv_reader : bytes → csv_read.
Variable pdf_tables : bytes → string + list (list pdf_table).

(** The CSV branch has no [try]: an error of the reader leaves the page.
    The header is checked before the loop, so an error in the loop is
    reached only when no required column is missing.  The PDF branch
    catches every exception. *)
Definition read_statement (filename : string) (file_bytes : bytes)
  : read_result :=
  if PyText.endswith (PyText.lower filename) ".csv" then
    match csv_reader file_bytes with
    | CsvHeaderRaises e => ReadRaises e
    | CsvRecordRaises fieldnames e =>
        let missing := missing_cols fieldnames in
        if decide (missing = ∅) then ReadRaises e
        else ReadError (missing_message missing)
    | CsvRead fieldnames records =>
        match csv_extract fieldnames records with
        | CsvError msg => ReadError msg
        | CsvRows preview backend => ReadRows (CsvPreview preview) backend
        end
    end
  else if PyText.endswith (PyText.lower filename) ".pdf" then
    match pdf_tables file_bytes with
    | inl e => ReadError ("Could not parse PDF statement: " +:+ e)
    | inr pages =>
        let '(preview, backend) := parse_gtbank_pdf_to_rows pages in
        ReadRows (PdfPreview preview) backend
    end
  else ReadError "Unsupported file type. Please upload a CSV or PDF.".

(** [preview_rows[:100]] *)
Definition first_100 (rows : preview_rows) : preview_rows :=
  match rows with
  | CsvPreview l => CsvPreview (take 100 l)
  | PdfPreview l => PdfPreview (take 100 l)
  end.

(** The payload built when the import button is pressed. *)
Definition build_import_payload (filename : string)
    (backend_rows : list backend_row) : import_payload :=
  ImportPayload
    (if PyText.endswith (PyText.lower filename) ".pdf"
     then "PDF upload" else "CSV upload")
    filename backend_rows.

(** The block [if uploaded_file is not None: ...] of the statement tab.
    The result says whether the page goes on after the block ([false]
    when the block ends with [return] or with an exception), gives the
    session state after it and the events of the block. *)
Definition upload_section (backend : import_service) (hustle_id : string)
    (uploaded_file : option (string * bytes)) (import_clicked : bool)
    (s : session_state) : bool * session_state * list page_event :=
  match uploaded_file with
  | None => (true, s, [])
  | Some (filename, file_bytes) =>
      match read_statement filename file_bytes with
      | ReadError msg => (false, s, [PUi (StError msg)])
      | ReadRaises e => (false, s, [PRaises e])
      | ReadRows preview_rows backend_rows =>
          match backend_rows with
          | [] =>
              (false, s,
               [PUi (StWarning "No usable rows found in this statement.")])
          | _ =>
              let shown := [PDataframe (first_100 preview_rows)] in
              if import_clicked then
                let payload := build_import_payload filename backend_rows in
                match backend hustle_id payload with
                | inr st =>
                    (true, SessionState (Some st),
                     shown ++
                     [PImportCall hustle_id payload;
                      PUi (StSuccess
                             ("Statement imported with "
                                +:+ pretty (length (default [] (s_rows st)))
                                +:+ " rows."))])
                | inl error =>
                    (true, s,
                     shown ++ PImportCall hustle_id payload
                       :: (PUi <$> show_api_error_events error))
                end
              else (true, s, shown)
          end
      end
  end.

End upload.

(** Whether an event is a call to the import service. *)
Definition is_import_call (e : page_event) : bool :=
  match e with PImportCall _ _ => true | _ => false end.

(** ** Saving the review table as it was built *)

(** The confirm item of a statement row whose suggestions are taken as
    they are defaulted. *)
Definition default_item (r : imported_row) : confirm_item :=
  ConfirmItem (or_empty (r_id r))
              (or_default (r_directionSuggested r) "INCOME")
              (if bool_decide
                    (or_default (r_categorySuggested r) "MISC"
                       ∉ CATEGORY_OPTIONS)
               then "MISC" else or_default (r_categorySuggested r) "MISC")
              None.

(** How a value of a row of [data_for_editor] comes back as a cell of
    [edited_df] when the table was not edited: a string as itself, a
    missing value as [None] or as NaN, by the version of pandas. *)
Definition cell_read_back (v : option string) (c : cell) : bool :=
  match v, c with
  | Some s, CellStr t => String.eqb s t
  | None, CellNone | None, CellNaN => true
  | _, _ => false
  end.

(** A row of [edited_df] that is the row [d] of [data_for_editor], not
    edited. *)
Definition read_back (d : editor_row) (row : edited_row) : bool :=
  Bool.eqb (d_import row) (e_import d)
  && cell_read_back (e_id d) (d_id row)
  && cell_read_back (e_direction d) (d_direction row)
  && cell_read_back (e_category d) (d_category row).

(** The confirm item of a statement row whose missing id came back as
    NaN. *)
Definition nan_item (r : imported_row) : confirm_item :=
  ConfirmItem "nan" (finalType (default_item r))
              (finalCategory (default_item r)) None.

(** What saving sends for a statement row, given the row of the
    unedited table that was read back for it. *)
Definition untouched_item (r : imported_row) (row : edited_row)
  : option confirm_item :=
  match r_id r, d_id row with
  | Some s, _ => if truthy s then Some (default_item r) else None
  | None, CellNaN => Some (nan_item r)
  | None, _ => None
  end.

(** ** The API client *)

Definition DEFAULT_BASE_URL : string := "http://localhost:4000/api".

(** [APIClient.__init__]: the base URL of the client, from the argument
    or, when it is [None], from the environment variable
    [TAXMATE_API_BASE_URL] with its default. *)
Definition api_client_base_url (base_url env : option string) : string :=
  PyText.rstrip_slash
    (match base_url with
     | Some b => b
     | None => default DEFAULT_BASE_URL env
     end).

(** The URL of [confirm_statement]; a statement id that is [None] is
    written [None] by the f-string. *)
Definition confirm_statement_url (base : string) (hustle_id : string)
    (statement_id : option string) : string :=
  base +:+ "/me/hustles/" +:+ hustle_id +:+ "/statements/"
       +:+ default "None" statement_id +:+ "/confirm".

(** ** JSON values of a profile *)

(** The values of the fields of a profile: null, booleans, numbers and
    strings. *)
Inductive json :=
| JNull
| JBool (b : bool)
| JNum (x : float)
| JStr (s : string).

(** Truth value of a JSON value. *)
Definition json_truthy (v : json) : bool :=
  match v with
  | JNull => false
  | JBool b => b
  | JNum x => negb (PyFloat.eq x PyFloat.zero)
  | JStr s => truthy s
  end.

(** [profile.get(key) or d] *)
Definition profile_get_or (profile : gmap string json) (key : string)
    (d : string) : json :=
  match profile !! key with
  | Some v => if json_truthy v then v else JStr d
  | None => JStr d
  end.

(** [c.upper()] for an ASCII character. *)
Definition upper_char (c : ascii) : ascii :=
  let n := N_of_ascii c in
  if ((97 <=? n) && (n <=? 122))%N then ascii_of_N (n - 32) else c.

(** [s.upper()] for ASCII text; characters from 128 on are kept. *)
Fixpoint upper (s : string) : string :=
  match s with
  | EmptyString => EmptyString
  | String c t => String (upper_char c) (upper t)
  end.

Definition employment_labels : gmap string string :=
  list_to_map
    [("EMPLOYEE", "Employee");
     ("SELF_EMPLOYED", "Self-employed");
     ("BOTH", "Employee & Self-employed");
     ("UNEMPLOYED", "Unemployed");
     ("INFORMAL", "Informal / Hustle")].

(** [format_employment_tag]; [None] stands for the [AttributeError] of
    [.upper()] on a value that is not a string. *)
Definition format_employment_tag (profile : option (gmap string json))
  : option string :=
  match profile with
  | None => Some "Profile not set"
  | Some p =>
      if decide (p = ∅) then Some "Profile not set"
      else
        match profile_get_or p "employmentType" "INFORMAL" with
        | JStr s => Some (default "Other" (employment_labels !! upper s))
        | _ => None
        end
  end.

(** The options of the employment type select box of the profile form. *)
Definition EMPLOYMENT_OPTIONS : list string :=
  ["EMPLOYEE"; "SELF_EMPLOYED"; "BOTH"; "UNEMPLOYED"; "INFORMAL"].

(** The [index=] argument of that select box in [page_profile]:
    [options.index(profile.get("employmentType") or "INFORMAL")];
    [None] stands for the [ValueError] of [list.index]. *)
Definition profile_employment_index (profile : gmap string json)
  : option nat :=
  match profile_get_or profile "employmentType" "INFORMAL" with
  | JStr s => fst <$> list_find (λ o, o = s) EMPLOYMENT_OPTIONS
  | _ => None
  end.

(** ** Session state of the application *)

Record user_info := UserInfo {
  u_email : option string
}.

(** The dictionary under the key [auth]. *)
Record auth_state := AuthState {
  access_token : option string;
  refresh_token : option string;
  user : option user_info
}.

Record hustle := Hustle {
  h_id : string;
  h_name : string;
  h_sector : option string
}.

(** The keys of [st.session_state] that the pages below use; a field is
    [None] when the key is not in the session.  [ss_api_client] holds
    the base URL of the cached client, [ss_profile_data] the cached
    profile, which may itself be [None]. *)
Record app_state := AppState {
  ss_api_client : option string;
  ss_auth : option auth_state;
  ss_profile_data : option (option (gmap string json));
  ss_hustles : option (list hustle)
}.

(** The body of a successful login or register response. *)
Record login_response := LoginResponse {
  lr_accessToken : option string;
  lr_refreshToken : option string;
  lr_user : option user_info
}.

(** The payload of [create_hustle]. *)
Record hustle_payload := HustlePayload {
  hp_name : string;
  hp_sector : option string;
  hp_description : option string
}.

(** The payload of [add_hustle_transaction]. *)
Record tx_payload := TxPayload {
  tx_date : string;
  tx_type : string;
  tx_category : string;
  tx_amount : float;
  tx_note : option string
}.

(** The requests of the client. *)
Inductive api_call :=
| CallGetProfile (token : option string)
| CallLogin (email password : string)
| CallRegister (email password : string)
| CallListHustles (token : option string)
| CallCreateHustle (payload : hustle_payload) (token : option string)
| CallAddTransaction (hustle_id : string) (payload : tx_payload)
                     (token : option string).

(** The backend as the pages see it through the client: for each method
    [inl] is [(False, error)] and [inr] is [(True, data)]. *)
Record backend_api := BackendApi {
  api_get_profile : option string → api_error + gmap string json;
  api_login : string → string → api_error + login_response;
  api_register : string → string → api_error + login_response;
  api_list_hustles : option string → api_error + list hustle;
  api_create_hustle : hustle_payload → option string → api_error + hustle;
  api_add_transaction :
    string → tx_payload → option string → api_error + unit
}.

Inductive app_event :=
| AUi (e : ui_event)
| AInfo (msg : string)
| ACall (c : api_call).

(** A page function: from the session state to a result, the session
    state after it and the events in order. *)
Definition page (A : Type) : Type :=
  app_state → A * app_state * list app_event.

#[global] Instance page_ret : MRet page := λ A a s, (a, s, []).

#[global] Instance page_bind : MBind page :=
  λ A B k m s,
    let '(a, s1, e1) := m s in
    let '(b, s2, e2) := k a s1 in
    (b, s2, e1 ++ e2).

Definition say (e : app_event) : page unit := λ s, (tt, s, [e]).

Definition get_state : page app_state := λ s, (s, s, []).

Definition set_auth (a : auth_state) : page unit :=
  λ s, (tt, AppState (ss_api_client s) (Some a) (ss_profile_data s)
                     (ss_hustles s), []).

Definition set_profile_data (p : option (gmap string json)) : page unit :=
  λ s, (tt, AppState (ss_api_client s) (ss_auth s) (Some p) (ss_hustles s),
        []).

Definition set_hustles (hs : list hustle) : page unit :=
  λ s, (tt, AppState (ss_api_client s) (ss_auth s) (ss_profile_data s)
                     (Some hs), []).

(** [show_api_error] as a page function. *)
Definition app_show_api_error (error : api_error) : page unit :=
  λ s, (tt, s, AUi <$> show_api_error_events error).

(** Whether an event is a request to the backend. *)
Definition is_api_call (e : app_event) : bool :=
  match e with ACall _ => true | _ => false end.

Section pages.

Variable env_base_url : option string.
Variable api : backend_api.

(** [get_client]: the client is created once and kept in the session. *)
Definition get_client : page string :=
  λ s, match ss_api_client s with
       | Some c => (c, s, [])
       | None =>
           let c := api_client_base_url None env_base_url in
           (c, AppState (Some c) (ss_auth s) (ss_profile_data s)
                        (ss_hustles s), [])
       end.

(** [get_auth_state] *)
Definition get_auth_state : page auth_state :=
  λ s, match ss_auth s with
       | Some a => (a, s, [])
       | None =>
           let a := AuthState None None None in
           (a, AppState (ss_api_client s) (Some a) (ss_profile_data s)
                        (ss_hustles s), [])
       end.

(** [require_login] *)
Definition require_login : page bool :=
  auth ← get_auth_state;
  if negb (opt_truthy (access_token auth)) then
    say (AUi (StWarning "You need to be logged in to use this feature."));;
    say (AInfo "Use the 'Account' page in the sidebar to log in or register.");;
    mret false
  else mret true.

(** [load_profile_if_needed] *)
Definition load_profile_if_needed : page (option (gmap string json)) :=
  auth ← get_auth_state;
  if negb (opt_truthy (access_token auth)) then mret None
  else
    _ ← get_client;
    s ← get_state;
    match ss_profile_data s with
    | None =>
        say (ACall (CallGetProfile (access_token auth)));;
        match api_get_profile api (access_token auth) with
        | inr data => set_profile_data (Some data);; mret (Some data)
        | inl error =>
            set_profile_data None;; app_show_api_error error;; mret None
        end
    | Some cached => mret cached
    end.

(** The widgets of the account page in one run. *)
Record account_inputs := AccountInputs {
  logout_clicked : bool;
  login_email : string;
  login_password : string;
  login_clicked : bool;
  reg_email : string;
  reg_password : string;
  register_clicked : bool
}.

(** The body shared by the login and the register button. *)
Definition sign_in (call : api_call)
    (response : api_error + login_response) (success : string)
    (email password : string) : page unit :=
  if negb (truthy email) || negb (truthy password) then
    say (AUi (StError "Email and password are required."))
  else
    say (ACall call);;
    match response with
    | inr data =>
        set_auth (AuthState (lr_accessToken data) (lr_refreshToken data)
                            (lr_user data));;
        say (AUi (StSuccess success))
    | inl error => app_show_api_error error
    end.

(** [page_account]; the result is [None] when the page raises, which it
    does when a token is held without a user. *)
Definition page_account (inp : account_inputs) : page (option unit) :=
  auth ← get_auth_state;
  _ ← get_client;
  if opt_truthy (access_token auth) then
    match user auth with
    | None => mret None
    | Some u =>
        say (AUi (StSuccess ("Logged in as " +:+ default "None" (u_email u))));;
        (if logout_clicked inp then
           set_auth (AuthState None None None);;
           say (AUi (StSuccess "Logged out."))
         else mret tt);;
        mret (Some tt)
    end
  else
    (if login_clicked inp then
       sign_in (CallLogin (login_email inp) (login_password inp))
               (api_login api (login_email inp) (login_password inp))
               "Logged in successfully."
               (login_email inp) (login_password inp)
     else mret tt);;
    (if register_clicked inp then
       sign_in (CallRegister (reg_email inp) (reg_password inp))
               (api_register api (reg_email inp) (reg_password inp))
               "Account created and logged in."
               (reg_email inp) (reg_password inp)
     else mret tt);;
    mret (Some tt).

(** The form that creates a hustle, in one run. *)
Record create_inputs := CreateInputs {
  ci_name : string;
  ci_sector : string;
  ci_description : string;
  ci_created : bool
}.

(** The first part of [page_hustle], up to the selection of a hustle:
    the result is the list of hustles to choose from, or [None] when the
    page returns before. *)
Definition page_hustle_hustles (inp : create_inputs)
  : page (option (list hustle)) :=
  logged_in ← require_login;
  if negb logged_in then mret None
  else
    auth ← get_auth_state;
    _ ← get_client;
    _ ← load_profile_if_needed;
    s ← get_state;
    loaded ←
      match ss_hustles s with
      | Some _ => mret true
      | None =>
          say (ACall (CallListHustles (access_token auth)));;
          match api_list_hustles api (access_token auth) with
          | inr data => set_hustles data;; mret true
          | inl error =>
              set_hustles [];; app_show_api_error error;; mret false
          end
      end;
    if negb loaded then mret None
    else
      (if ci_created inp then
         if negb (truthy (ci_name inp)) then
           say (AUi (StError "Hustle name is required."))
         else
           let payload :=
             HustlePayload (ci_name inp) (or_none (ci_sector inp))
                           (or_none (ci_description inp)) in
           say (ACall (CallCreateHustle payload (access_token auth)));;
           match api_create_hustle api payload (access_token auth) with
           | inr data =>
               say (AUi (StSuccess "Hustle created."));;
               s1 ← get_state;
               set_hustles (data :: default [] (ss_hustles s1))
           | inl error => app_show_api_error error
           end
       else mret tt);;
      s2 ← get_state;
      match default [] (ss_hustles s2) with
      | [] =>
          say (AInfo "You don't have any hustles yet. Create one above.");;
          mret None
      | hustles => mret (Some hustles)
      end.

(** The form that adds an entry by hand, in one run; [mi_date] is
    [tx_date.isoformat()]. *)
Record manual_inputs := ManualInputs {
  mi_date : string;
  mi_type : string;
  mi_category : string;
  mi_amount : float;
  mi_note : string;
  mi_added : bool
}.

(** The handler of the form that adds an entry by hand. *)
Definition add_entry (hustle_id : string) (token : option string)
    (inp : manual_inputs) : page unit :=
  if mi_added inp then
    if SFleb (mi_amount inp) PyFloat.zero || negb (truthy (mi_category inp))
    then say (AUi (StError "Category and a positive amount are required."))
    else
      let payload :=
        TxPayload (mi_date inp) (mi_type inp) (mi_category inp)
                  (mi_amount inp) (or_none (mi_note inp)) in
      say (ACall (CallAddTransaction hustle_id payload token));;
      match api_add_transaction api hustle_id payload token with
      | inr _ => say (AUi (StSuccess "Entry added."))
      | inl error => app_show_api_error error
      end
  else mret tt.

End pages.

(** A backend for examples: it has a profile and one hustle, accepts
    every login with a token and no user, refuses every registration
    and accepts every new hustle and entry. *)
Definition sample_api : backend_api :=
  BackendApi (λ _, inr {["fullName" := JStr "Ada"]})
             (λ _ _, inr (LoginResponse (Some "tok") (Some "ref") None))
             (λ _ _, inl (ApiError "Email already registered" None))
             (λ _, inr [Hustle "h1" "POS stand" None])
             (λ payload _, inr (Hustle "h2" (hp_name payload) (hp_sector payload)))
             (λ _ _ _, inr tt).


(** * Properties *)

(** ** The model on small inputs *)

Example of_string_decimals :
  PyFloat.of_string "0.1" = Some (S754_finite false 7205759403792794 (-56))
  ∧ PyFloat.of_string " 1_000.5 " = Some (S754_finite false 8800491068719104 (-43))
  ∧ PyFloat.of_string "-5" = Some (S754_finite true 5629499534213120 (-50))
  ∧ PyFloat.of_string "1e400" = Some (S754_infinity false)
  ∧ PyFloat.of_string "1e-400" = Some (S754_zero false)
  ∧ PyFloat.of_string "-0" = Some (S754_zero true)
  ∧ PyFloat.of_string "NaN" = Some S754_nan
  ∧ PyFloat.of_string "-Infinity" = Some (S754_infinity true).
Proof. vm_compute. done. Qed.

Example of_string_rejects :
  omap PyFloat.of_string
       [""; "abc"; "."; "1__0"; "_1"; "1_"; "0x10"; "+-1"; "1e"; "1,5"; "N/A"]
  = [].
Proof. vm_compute. done. Qed.

(** [float] ignores TAB..CR, SPACE, NEL and NBSP around a number, and
    not FS..US, which [str.strip] removes: an [amountRaw] that starts with
    FS gives the amount [0.0] in the review table. *)
Example of_string_white_space :
  let fs7 := String (ascii_of_nat 28) "7" in
  PyFloat.of_string (String (ascii_of_nat 9) "7 ") = PyFloat.of_string "7"
  ∧ PyFloat.of_string (String (ascii_of_nat 160) "7") = PyFloat.of_string "7"
  ∧ PyFloat.of_string fs7 = None
  ∧ strip fs7 = "7"
  ∧ e_amount (editor_row_of
                (ImportedRow (Some "r1") None None (Some fs7) None None
                             None None))
    = PyFloat.zero.
Proof. vm_compute. done. Qed.

Example strip_examples :
  strip "  REF 1 " = "REF 1" ∧ strip "   " = "" ∧ remove_commas "1,234,567.00" = "1234567.00".
Proof. vm_compute. done. Qed.

(** The CSV file [date,description,debit,credit] with a deposit of
    15000, a fuel expense of 5000 and a subtotal line of zeros. *)
Example csv_extract_sample :
  csv_extract (Some ["date"; "description"; "debit"; "credit"])
              [["2024-01-05"; "POS deposit"; ""; "15000"];
               ["2024-01-06"; "Fuel"; "5000"; ""];
               ["2024-01-07"; "Subtotal"; "0"; "0"]]
  = let a15000 := S754_finite false 8246337208320000 (-39) in
    let a5000 := S754_finite false 5497558138880000 (-40) in
    CsvRows
      [CsvPreviewRow "2024-01-05" "POS deposit" PyFloat.zero a15000 "INCOME" a15000;
       CsvPreviewRow "2024-01-06" "Fuel" a5000 PyFloat.zero "EXPENSE" a5000]
      [BackendRow "2024-01-05" "POS deposit" a15000 "INCOME" None None;
       BackendRow "2024-01-06" "Fuel" a5000 "EXPENSE" None None].
Proof. vm_compute. done. Qed.

(** ** Loops that append to two lists *)

Section emit_loops.
Context {X P B : Type}.

(** A loop whose body appends the outputs [out x] of each element to
    the two accumulators produces the outputs in order. *)
Lemma foldl_append_outputs (out : X → list (P * B))
    (step : list P * list B → X → list P * list B) :
  (∀ acc x, step acc x = (acc.1 ++ (out x).*1, acc.2 ++ (out x).*2)) →
  ∀ l acc,
    foldl step acc l = (acc.1 ++ (l ≫= out).*1, acc.2 ++ (l ≫= out).*2).
Proof.
  intros Hstep l. induction l as [|x l IH]; intros acc; csimpl.
  - rewrite !app_nil_r. by destruct acc.
  - rewrite IH, Hstep. simpl. rewrite !fmap_app, !(assoc_L (++)). done.
Qed.

Lemma omap_as_bind (f : X → option (P * B)) (l : list X) :
  l ≫= (λ x, option_list (f x)) = omap f l.
Proof.
  induction l as [|x l IH]; csimpl; [done|].
  rewrite IH. by destruct (f x).
Qed.

Lemma omap_concat (f : X → option (P * B)) (ls : list (list X)) :
  ls ≫= omap f = omap f (concat ls).
Proof.
  induction ls as [|l ls IH]; csimpl; [done|].
  by rewrite omap_app, IH.
Qed.
End emit_loops.

(** ** The PDF extractor as a filter *)

Lemma pdf_row_step_spec acc row :
  pdf_row_step acc row
  = (acc.1 ++ (option_list (pdf_row row)).*1,
     acc.2 ++ (option_list (pdf_row row)).*2).
Proof.
  unfold pdf_row_step. destruct (pdf_row row) as [[p b]|]; simpl; [done|].
  rewrite !app_nil_r. by destruct acc.
Qed.

Lemma pdf_table_step_spec acc table :
  pdf_table_step acc table
  = (acc.1 ++ (omap pdf_row table).*1, acc.2 ++ (omap pdf_row table).*2).
Proof.
  rewrite <- omap_as_bind.
  destruct table as [|row table].
  - simpl. rewrite !app_nil_r. by destruct acc.
  - unfold pdf_table_step.
    apply (foldl_append_outputs (λ r, option_list (pdf_row r))).
    apply pdf_row_step_spec.
Qed.

Lemma pdf_page_step_spec acc tables :
  pdf_page_step acc tables
  = (acc.1 ++ (omap pdf_row (concat tables)).*1,
     acc.2 ++ (omap pdf_row (concat tables)).*2).
Proof.
  rewrite <- omap_concat.
  destruct tables as [|table tables].
  - simpl. rewrite !app_nil_r. by destruct acc.
  - unfold pdf_page_step.
    apply (foldl_append_outputs (omap pdf_row)), pdf_table_step_spec.
Qed.

(** The extractor keeps, in reading order, the rows on which the loop
    body does not [continue]. *)
Lemma parse_gtbank_pdf_to_rows_spec pages :
  parse_gtbank_pdf_to_rows pages
  = ((omap pdf_row (pdf_input_rows pages)).*1,
     (omap pdf_row (pdf_input_rows pages)).*2).
Proof.
  unfold parse_gtbank_pdf_to_rows, pdf_input_rows.
  rewrite (foldl_append_outputs (λ tables, omap pdf_row (concat tables)))
    by apply pdf_page_step_spec.
  simpl. rewrite <- (omap_concat pdf_row (concat pages)).
  f_equal; f_equal.
  all: induction pages as [|tables pages IH]; csimpl; [done|].
  all: by rewrite bind_app, IH, !omap_concat.
Qed.

(** What is known of a row that the PDF loop body emits. *)
Lemma pdf_row_Some row p b :
  pdf_row row = Some (p, b) →
  is_header_row row = false
  ∧ 5 ≤ length row
  ∧ truthy (pdf_date row) = true
  ∧ (PyFloat.eq (pdf_debit row) PyFloat.zero
       && PyFloat.eq (pdf_credit row) PyFloat.zero = false)
  ∧ pp_date p = pdf_date row ∧ b_date b = pdf_date row
  ∧ pp_debit p = pdf_debit row ∧ pp_credit p = pdf_credit row
  ∧ b_description b = pdf_description (pdf_reference row) (pdf_remarks row)
  ∧ pp_mapped_direction p = b_direction b
  ∧ pp_mapped_amount p = b_amount b
  ∧ (b_direction b, b_amount b)
    = (if PyFloat.gt (pdf_credit row) PyFloat.zero
       then ("INCOME", pdf_credit row) else ("EXPENSE", pdf_debit row)).
Proof.
  unfold pdf_row, pdf_debit, pdf_credit, pdf_date, pdf_reference, pdf_remarks.
  intros H. destruct row as [|c row]; [done|].
  destruct (is_header_row (c :: row)); [done|].
  case_bool_decide as Hlen; [done|].
  destruct (truthy (strip (cell_text (c :: row) 0))); [|done].
  simpl negb in H. cbv iota in H.
  destruct (PyFloat.eq _ _ && PyFloat.eq _ _) eqn:Hz; [done|].
  destruct (PyFloat.gt _ PyFloat.zero) eqn:Hgt;
    simplify_eq; simpl; rewrite ?Hgt; repeat split; auto; simpl in Hlen; lia.
Qed.

(** ** The CSV branch as a filter *)

Lemma csv_row_step_spec acc row :
  csv_row_step acc row
  = (acc.1 ++ (option_list (csv_row row)).*1,
     acc.2 ++ (option_list (csv_row row)).*2).
Proof.
  unfold csv_row_step. destruct (csv_row row) as [[p b]|]; simpl; [done|].
  rewrite !app_nil_r. by destruct acc.
Qed.

Lemma csv_extract_rows fieldnames records :
  missing_cols fieldnames = ∅ →
  csv_extract fieldnames records
  = CsvRows (omap csv_row (dict_reader fieldnames records)).*1
            (omap csv_row (dict_reader fieldnames records)).*2.
Proof.
  intros Hm. unfold csv_extract. rewrite decide_True by done.
  rewrite (foldl_append_outputs (λ r, option_list (csv_row r)))
    by apply csv_row_step_spec.
  by rewrite omap_as_bind.
Qed.

Lemma csv_extract_error fieldnames records :
  missing_cols fieldnames ≠ ∅ →
  csv_extract fieldnames records
  = CsvError (missing_message (missing_cols fieldnames)).
Proof. intros Hm. unfold csv_extract. by rewrite decide_False. Qed.

(** What is known of a row that the CSV loop body emits. *)
Lemma csv_row_Some row p b :
  csv_row row = Some (p, b) →
  truthy (csv_date row) = true
  ∧ truthy (csv_desc row) = true
  ∧ cp_date p = csv_date row ∧ b_date b = csv_date row
  ∧ cp_description p = csv_desc row ∧ b_description b = csv_desc row
  ∧ cp_debit p = csv_debit row ∧ cp_credit p = csv_credit row
  ∧ cp_mapped_direction p = b_direction b
  ∧ cp_mapped_amount p = b_amount b
  ∧ ((PyFloat.gt (csv_credit row) PyFloat.zero = true
      ∧ b_direction b = "INCOME" ∧ b_amount b = csv_credit row)
     ∨ (PyFloat.gt (csv_credit row) PyFloat.zero = false
        ∧ PyFloat.gt (csv_debit row) PyFloat.zero = true
        ∧ b_direction b = "EXPENSE" ∧ b_amount b = csv_debit row)).
Proof.
  unfold csv_row, csv_debit, csv_credit, csv_date, csv_desc.
  intros H.
  destruct (truthy (strip (csv_field row "date"))); [|done].
  destruct (truthy (strip (csv_field row "description"))); [|done].
  simpl in H.
  destruct (PyFloat.gt (parse_amount (strip (remove_commas (csv_field row "credit")))) _)
    eqn:Hc.
  - simplify_eq. simpl. repeat split; auto.
  - destruct (PyFloat.gt _ _) eqn:Hd in H; [|done].
    simplify_eq. simpl. repeat split; auto.
Qed.

(** ** The review table and the commit items as maps and filters *)

Lemma data_for_editor_spec rows :
  data_for_editor rows = editor_row_of <$> rows.
Proof.
  unfold data_for_editor.
  enough (∀ acc, foldl (λ acc r, acc ++ [editor_row_of r]) acc rows
                 = acc ++ (editor_row_of <$> rows)) as H by apply (H []).
  induction rows as [|r rows IH]; intros acc; simpl.
  - by rewrite app_nil_r.
  - by rewrite IH, <- (assoc_L (++)).
Qed.

Lemma review_table_spec st :
  review_table st = editor_row_of <$> default [] (s_rows st).
Proof.
  unfold review_table. destruct (default [] (s_rows st)); [done|].
  apply data_for_editor_spec.
Qed.

Lemma commit_items_spec edited_df :
  commit_items edited_df = omap confirm_item_of edited_df.
Proof.
  unfold commit_items.
  enough (∀ acc,
    foldl (λ items row, match confirm_item_of row with
                        | None => items
                        | Some item => items ++ [item]
                        end) acc edited_df
    = acc ++ omap confirm_item_of edited_df) as H by apply (H []).
  induction edited_df as [|row rows IH]; intros acc; simpl.
  - by rewrite app_nil_r.
  - rewrite IH. destruct (confirm_item_of row); simpl; [|done].
    by rewrite <- (assoc_L (++)).
Qed.

(** ** Rows that a loop body skips *)

Section skipped.
Context {A B : Type} (f : A → option B).

Lemma length_omap_le (l : list A) : length (omap f l) ≤ length l.
Proof.
  induction l as [|x l IH]; csimpl; [done|].
  destruct (f x); csimpl; lia.
Qed.

Lemma length_omap_lt (l : list A) (x : A) :
  x ∈ l → f x = None → length (omap f l) < length l.
Proof.
  intros Hin Hx. induction Hin as [x l|x y l Hin IH]; csimpl.
  - rewrite Hx. pose proof (length_omap_le l). lia.
  - specialize (IH Hx). destruct (f y); csimpl; lia.
Qed.

Lemma omap_skip (l1 l2 : list A) (x : A) :
  f x = None → omap f (l1 ++ x :: l2) = omap f (l1 ++ l2).
Proof. intros Hx. rewrite !omap_app. csimpl. by rewrite Hx. Qed.
End skipped.

(** A row on which the PDF loop body does [continue] can be deleted from
    its table, wherever it stands, without changing the two outputs. *)
Lemma pdf_skipped_row_irrelevant row :
  pdf_row row = None →
  ∀ pages_before tables_before rows_before rows_after tables_after pages_after,
    parse_gtbank_pdf_to_rows
      (pages_before
         ++ (tables_before ++ (rows_before ++ row :: rows_after) :: tables_after)
         :: pages_after)
    = parse_gtbank_pdf_to_rows
        (pages_before
           ++ (tables_before ++ (rows_before ++ rows_after) :: tables_after)
           :: pages_after).
Proof.
  intros Hrow pb tb rb ra ta pa.
  rewrite !parse_gtbank_pdf_to_rows_spec. unfold pdf_input_rows.
  rewrite !concat_app. simpl. rewrite !concat_app. simpl.
  rewrite !omap_app. csimpl. rewrite Hrow. by rewrite ?omap_app.
Qed.

(** Every emitted pair comes from a row of the input. *)
Lemma pdf_output_provenance pages :
  let out := parse_gtbank_pdf_to_rows pages in
  (∀ p, p ∈ out.1 →
        ∃ row b, row ∈ pdf_input_rows pages ∧ pdf_row row = Some (p, b))
  ∧ (∀ b, b ∈ out.2 →
          ∃ row p, row ∈ pdf_input_rows pages ∧ pdf_row row = Some (p, b)).
Proof.
  simpl. rewrite parse_gtbank_pdf_to_rows_spec. simpl. split.
  - intros p [[p' b] [-> Hin]]%list_elem_of_fmap.
    apply list_elem_of_omap in Hin as (row & Hin & Hrow). by exists row, b.
  - intros b [[p b'] [-> Hin]]%list_elem_of_fmap.
    apply list_elem_of_omap in Hin as (row & Hin & Hrow). by exists row, p.
Qed.

Lemma csv_output_provenance fieldnames records preview backend :
  csv_extract fieldnames records = CsvRows preview backend →
  (∀ p, p ∈ preview →
        ∃ row b, row ∈ dict_reader fieldnames records
                 ∧ csv_row row = Some (p, b))
  ∧ (∀ b, b ∈ backend →
          ∃ row p, row ∈ dict_reader fieldnames records
                   ∧ csv_row row = Some (p, b)).
Proof.
  intros H. destruct (decide (missing_cols fieldnames = ∅)) as [Hm|Hm].
  - rewrite csv_extract_rows in H by done. simplify_eq. split.
    + intros p [[p' b] [-> Hin]]%list_elem_of_fmap.
      apply list_elem_of_omap in Hin as (row & Hin & Hrow). by exists row, b.
    + intros b [[p b'] [-> Hin]]%list_elem_of_fmap.
      apply list_elem_of_omap in Hin as (row & Hin & Hrow). by exists row, p.
  - by rewrite csv_extract_error in H.
Qed.

(** ** Rows without a money movement *)

Lemma parse_amount_fallback s :
  s = "" ∨ PyFloat.of_string s = None → parse_amount s = PyFloat.zero.
Proof.
  unfold parse_amount. intros [-> | ->]; [done|]. by destruct (truthy s).
Qed.

Lemma pdf_zero_movement_skipped row :
  pdf_zero_movement row → pdf_row row = None.
Proof.
  intros [Hd Hc]. destruct (pdf_row row) as [[p b]|] eqn:Hrow; [|done].
  apply pdf_row_Some in Hrow as (_ & _ & _ & Hz & _).
  by rewrite Hd, Hc in Hz.
Qed.

Lemma zero_not_gt x :
  PyFloat.eq x PyFloat.zero = true → PyFloat.gt x PyFloat.zero = false.
Proof. by destruct x as [[]|[]| |[] ? ?]. Qed.

Lemma csv_zero_movement_skipped row :
  csv_zero_movement row → csv_row row = None.
Proof.
  intros [Hd Hc]. destruct (csv_row row) as [[p b]|] eqn:Hrow; [|done].
  apply zero_not_gt in Hd, Hc.
  apply csv_row_Some in Hrow as (_ & _ & _ & _ & _ & _ & _ & _ & _ & _ & H).
  destruct H as [[? _]|(_ & ? & _)]; congruence.
Qed.

Lemma length_dict_reader fieldnames records :
  length (dict_reader fieldnames records) ≤ length records.
Proof.
  unfold dict_reader. rewrite length_fmap. apply length_filter.
Qed.

(** ** C2: rows without a money movement are excluded *)

(** C2. A row of either extractor whose debit and credit both parse to
    0.0 (a blank cell and text that [float] rejects are read as 0.0) is
    skipped by the loop body, so it is in neither output list: every
    emitted preview or backend row stems from an input row that is not
    of this kind.  Each output list is at most as long as the list of
    input rows, and strictly shorter when such a row is among them. *)
Theorem zero_movement_rows_excluded :
  (∀ s, s = "" ∨ PyFloat.of_string s = None → parse_amount s = PyFloat.zero)
  ∧ (∀ pages,
       let out := parse_gtbank_pdf_to_rows pages in
       let rows := pdf_input_rows pages in
       length out.1 ≤ length rows ∧ length out.2 ≤ length rows
       ∧ (∀ row, row ∈ rows → pdf_zero_movement row →
            pdf_row row = None
            ∧ length out.1 < length rows ∧ length out.2 < length rows)
       ∧ (∀ p, p ∈ out.1 →
            ∃ row b, row ∈ rows ∧ ¬ pdf_zero_movement row
                     ∧ pdf_row row = Some (p, b))
       ∧ (∀ b, b ∈ out.2 →
            ∃ row p, row ∈ rows ∧ ¬ pdf_zero_movement row
                     ∧ pdf_row row = Some (p, b)))
  ∧ (∀ fieldnames records preview backend,
       csv_extract fieldnames records = CsvRows preview backend →
       let rows := dict_reader fieldnames records in
       length rows ≤ length records
       ∧ length preview ≤ length rows ∧ length backend ≤ length rows
       ∧ (∀ row, row ∈ rows → csv_zero_movement row →
            csv_row row = None
            ∧ length preview < length rows ∧ length backend < length rows)
       ∧ (∀ p, p ∈ preview →
            ∃ row b, row ∈ rows ∧ ¬ csv_zero_movement row
                     ∧ csv_row row = Some (p, b))
       ∧ (∀ b, b ∈ backend →
            ∃ row p, row ∈ rows ∧ ¬ csv_zero_movement row
                     ∧ csv_row row = Some (p, b))).
Proof.
  split; [apply parse_amount_fallback|]. split.
  - intros pages out rows.
    destruct (pdf_output_provenance pages) as [Hp Hb].
    subst out rows. rewrite parse_gtbank_pdf_to_rows_spec in *. simpl in *.
    rewrite !length_fmap.
    split_and!; try apply length_omap_le.
    + intros row Hin Hz. apply pdf_zero_movement_skipped in Hz.
      split_and!; [done|by eapply length_omap_lt..].
    + intros p (row & b & Hin & Hrow)%Hp. exists row, b. split_and!; [done| |done].
      intros Hz%pdf_zero_movement_skipped. congruence.
    + intros b (row & p & Hin & Hrow)%Hb. exists row, p. split_and!; [done| |done].
      intros Hz%pdf_zero_movement_skipped. congruence.
  - intros fieldnames records preview backend Hex rows.
    destruct (csv_output_provenance _ _ _ _ Hex) as [Hp Hb].
    destruct (decide (missing_cols fieldnames = ∅)) as [Hm|Hm];
      [|by rewrite csv_extract_error in Hex].
    rewrite csv_extract_rows in Hex by done. simplify_eq.
    rewrite !length_fmap. fold rows in Hp, Hb |- *.
    split_and!; try apply length_omap_le.
    + apply length_dict_reader.
    + intros row Hin Hz. apply csv_zero_movement_skipped in Hz.
      split_and!; [done|by eapply length_omap_lt..].
    + intros p (row & b & Hin & Hrow)%Hp. exists row, b. split_and!; [done| |done].
      intros Hz%csv_zero_movement_skipped. congruence.
    + intros b (row & p & Hin & Hrow)%Hb. exists row, p. split_and!; [done| |done].
      intros Hz%csv_zero_movement_skipped. congruence.
Qed.

(** A PDF table with a transaction and a subtotal line whose amount
    cells hold text and a blank, and a CSV file with a transaction and a
    line of zeros. *)
Lemma zero_movement_rows_excluded_witness :
  let subtotal := [Some "07-Jan-2024"; Some "Subtotal"; None; Some "n/a"; Some ""] in
  let pages :=
    [[[[Some "06-Jan-2024"; Some "REF9"; Some "06-Jan-2024"; Some "5,000.00"; None];
       subtotal]]] in
  let header := Some ["date"; "description"; "debit"; "credit"] in
  let records := [["2024-01-06"; "Fuel"; "5000"; ""];
                  ["2024-01-07"; "Subtotal"; "0"; "0"]] in
  let zeros := csv_dict (default [] header) ["2024-01-07"; "Subtotal"; "0"; "0"] in
  (pdf_row subtotal = None
   ∧ length (parse_gtbank_pdf_to_rows pages).1 < length (pdf_input_rows pages)
   ∧ length (parse_gtbank_pdf_to_rows pages).2 < length (pdf_input_rows pages))
  ∧ (csv_row zeros = None
     ∧ length (omap csv_row (dict_reader header records)).*1
       < length (dict_reader header records)
     ∧ length (omap csv_row (dict_reader header records)).*2
       < length (dict_reader header records)).
Proof.
  intros subtotal pages header records zeros.
  destruct zero_movement_rows_excluded as (_ & Hpdf & Hcsv). split.
  - apply (Hpdf pages).
    + apply list_elem_of_In. vm_compute. auto.
    + split; vm_compute; reflexivity.
  - apply (Hcsv header records _ _ (csv_extract_rows header records eq_refl)).
    + apply list_elem_of_In. simpl. auto.
    + split; vm_compute; reflexivity.
Defined.

(** ** C7: header rows of a PDF table *)

(** C7. A PDF row whose joined cells (the cells, [None] read as empty,
    joined by single spaces) contain both marker tokens [Trans] and
    [Debit] is skipped by the loop body.  It can stand anywhere in any
    table of any page: the two outputs are those of the input without it,
    and every emitted row stems from a row that is not a header row. *)
Theorem header_rows_never_emitted (row : pdf_table_row)
    (Htrans : contains "Trans" (joined row) = true)
    (Hdebit : contains "Debit" (joined row) = true) :
  pdf_row row = None
  ∧ (∀ pages_before tables_before rows_before rows_after tables_after
       pages_after,
       parse_gtbank_pdf_to_rows
         (pages_before
            ++ (tables_before
                  ++ (rows_before ++ row :: rows_after) :: tables_after)
            :: pages_after)
       = parse_gtbank_pdf_to_rows
           (pages_before
              ++ (tables_before ++ (rows_before ++ rows_after) :: tables_after)
              :: pages_after))
  ∧ (∀ pages,
       let out := parse_gtbank_pdf_to_rows pages in
       (∀ p, p ∈ out.1 →
          ∃ row' b, row' ∈ pdf_input_rows pages ∧ row' ≠ row
                    ∧ is_header_row row' = false ∧ pdf_row row' = Some (p, b))
       ∧ (∀ b, b ∈ out.2 →
            ∃ row' p, row' ∈ pdf_input_rows pages ∧ row' ≠ row
                      ∧ is_header_row row' = false
                      ∧ pdf_row row' = Some (p, b))).
Proof.
  assert (pdf_row row = None) as Hrow.
  { unfold pdf_row, is_header_row. rewrite Htrans, Hdebit.
    by destruct row. }
  split_and!; [done|by apply pdf_skipped_row_irrelevant|].
  intros pages out. destruct (pdf_output_provenance pages) as [Hp Hb].
  split.
  - intros p (row' & b & Hin & Hrow')%Hp. exists row', b.
    split_and!; [done|congruence| |done].
    by apply pdf_row_Some in Hrow' as (? & _).
  - intros b (row' & p & Hin & Hrow')%Hb. exists row', p.
    split_and!; [done|congruence| |done].
    by apply pdf_row_Some in Hrow' as (? & _).
Qed.

(** The header row of a GTBank statement, between two transactions. *)
Lemma header_rows_never_emitted_witness :
  let header := [Some "Trans Date"; Some "Reference"; Some "Value Date";
                 Some "Debit"; Some "Credit"; Some "Balance"; Some "Remarks"] in
  let r1 := [Some "06-Jan-2024"; Some "REF9"; Some "06-Jan-2024";
             Some "5,000.00"; None] in
  let r2 := [Some "08-Jan-2024"; Some "REF10"; Some "08-Jan-2024";
             None; Some "120.50"] in
  pdf_row header = None
  ∧ parse_gtbank_pdf_to_rows [[[r1; header; r2]]]
    = parse_gtbank_pdf_to_rows [[[r1; r2]]].
Proof.
  intros header r1 r2.
  destruct (header_rows_never_emitted header eq_refl eq_refl) as (H1 & H2 & _).
  split; [exact H1|]. exact (H2 [] [] [r1] [r2] [] []).
Defined.

(** ** C10: PDF rows without a date *)

(** C10. A PDF row whose date cell (index 0) is empty after stripping is
    skipped, whatever its debit and credit cells hold, and wherever it
    stands; hence every emitted preview row and backend row has a
    non-empty date. *)
Theorem pdf_rows_without_date_dropped :
  (∀ row, pdf_date row = "" →
     pdf_row row = None
     ∧ ∀ pages_before tables_before rows_before rows_after tables_after
         pages_after,
         parse_gtbank_pdf_to_rows
           (pages_before
              ++ (tables_before
                    ++ (rows_before ++ row :: rows_after) :: tables_after)
              :: pages_after)
         = parse_gtbank_pdf_to_rows
             (pages_before
                ++ (tables_before
                      ++ (rows_before ++ rows_after) :: tables_after)
                :: pages_after))
  ∧ (∀ pages,
       let out := parse_gtbank_pdf_to_rows pages in
       Forall (λ p, pp_date p ≠ "") out.1 ∧ Forall (λ b, b_date b ≠ "") out.2).
Proof.
  split.
  - intros row Hdate.
    assert (pdf_row row = None) as Hrow.
    { destruct (pdf_row row) as [[p b]|] eqn:Hrow; [|done].
      apply pdf_row_Some in Hrow as (_ & _ & Ht & _).
      by rewrite Hdate in Ht. }
    split; [done|by apply pdf_skipped_row_irrelevant].
  - intros pages out. destruct (pdf_output_provenance pages) as [Hp Hb].
    split; apply Forall_forall.
    + intros p (row & b & _ & Hrow)%Hp.
      apply pdf_row_Some in Hrow as (_ & _ & Ht & _ & -> & _).
      by destruct (pdf_date row).
    + intros b (row & p & _ & Hrow)%Hb.
      apply pdf_row_Some in Hrow as (_ & _ & Ht & _ & _ & -> & _).
      by destruct (pdf_date row).
Qed.

(** A row with a blank date cell and a debit of 2,500.00 after a
    transaction. *)
Lemma pdf_rows_without_date_dropped_witness :
  let r1 := [Some "06-Jan-2024"; Some "REF9"; Some "06-Jan-2024";
             Some "5,000.00"; None] in
  let undated := [Some "  "; Some "REF10"; None; Some "2,500.00"; Some ""] in
  PyFloat.gt (pdf_debit undated) PyFloat.zero = true
  ∧ pdf_row undated = None
  ∧ parse_gtbank_pdf_to_rows [[[r1; undated]]]
    = parse_gtbank_pdf_to_rows [[[r1]]].
Proof.
  intros r1 undated.
  destruct (proj1 pdf_rows_without_date_dropped undated eq_refl) as [H1 H2].
  split_and!; [reflexivity|exact H1|exact (H2 [] [] [r1] [] [] [])].
Defined.

(** ** C1 and C8: direction and amount of an emitted entry *)

(** The CSV branch follows the three-way direction rule. *)
Lemma csv_direction_rule row :
  match csv_row row with
  | Some (p, b) =>
      if PyFloat.gt (csv_credit row) PyFloat.zero
      then b_direction b = "INCOME" ∧ b_amount b = csv_credit row
      else PyFloat.gt (csv_debit row) PyFloat.zero = true
           ∧ b_direction b = "EXPENSE" ∧ b_amount b = csv_debit row
  | None =>
      csv_date row = "" ∨ csv_desc row = ""
      ∨ (PyFloat.gt (csv_credit row) PyFloat.zero = false
         ∧ PyFloat.gt (csv_debit row) PyFloat.zero = false)
  end.
Proof.
  destruct (csv_row row) as [[p b]|] eqn:Hrow.
  - apply csv_row_Some in Hrow as (_ & _ & _ & _ & _ & _ & _ & _ & _ & _ & H).
    destruct H as [(-> & ? & ?)|(-> & ? & ? & ?)]; done.
  - revert Hrow. unfold csv_row.
    fold (csv_date row) (csv_desc row) (csv_debit row) (csv_credit row).
    destruct (csv_date row); [auto|]. destruct (csv_desc row); [auto|].
    simpl. by repeat case_match; auto.
Qed.

(** Every amount the CSV branch emits is greater than zero. *)
Lemma csv_amount_positive fieldnames records preview backend :
  csv_extract fieldnames records = CsvRows preview backend →
  Forall (λ p, PyFloat.gt (cp_mapped_amount p) PyFloat.zero = true) preview
  ∧ Forall (λ b, PyFloat.gt (b_amount b) PyFloat.zero = true) backend.
Proof.
  intros [Hp Hb]%csv_output_provenance. split; apply Forall_forall.
  - intros p (row & b & _ & Hrow)%Hp.
    apply csv_row_Some in Hrow as (_ & _ & _ & _ & _ & _ & _ & _ & _ & -> & H).
    destruct H as [(? & _ & ->)|(_ & ? & _ & ->)]; done.
  - intros b (row & p & _ & Hrow)%Hb.
    apply csv_row_Some in Hrow as (_ & _ & _ & _ & _ & _ & _ & _ & _ & _ & H).
    destruct H as [(? & _ & ->)|(_ & ? & _ & ->)]; done.
Qed.

(** On the PDF path the rule holds for rows with a positive credit or a
    positive debit. *)
Lemma pdf_direction_rule row p b :
  pdf_row row = Some (p, b) →
  (PyFloat.gt (pdf_credit row) PyFloat.zero = true →
     b_direction b = "INCOME" ∧ b_amount b = pdf_credit row)
  ∧ (PyFloat.gt (pdf_credit row) PyFloat.zero = false →
       b_direction b = "EXPENSE" ∧ b_amount b = pdf_debit row).
Proof.
  intros H. apply pdf_row_Some in H.
  destruct H as (_ & _ & _ & _ & _ & _ & _ & _ & _ & _ & _ & H).
  split; intros Hgt; rewrite Hgt in H; by simplify_eq.
Qed.

(** C1. On the PDF path a row with a negative credit and a blank debit is
    emitted although neither its credit nor its debit is greater than
    zero: the entry is an EXPENSE of amount 0.0.  The CSV branch skips a
    row with the same debit and credit. *)
Theorem pdf_entry_without_positive_amount :
  let row := [Some "05-Jan-2024"; Some "REV1"; Some "05-Jan-2024";
              Some ""; Some "-5"] in
  let csv := csv_dict ["date"; "description"; "debit"; "credit"]
                      ["05-Jan-2024"; "REV1"; ""; "-5"] in
  PyFloat.gt (pdf_credit row) PyFloat.zero = false
  ∧ PyFloat.gt (pdf_debit row) PyFloat.zero = false
  ∧ (parse_gtbank_pdf_to_rows [[[row]]]).2
    = [BackendRow "05-Jan-2024" "REV1" (S754_zero false) "EXPENSE"
                  (Some "REV1") None]
  ∧ csv_debit csv = pdf_debit row ∧ csv_credit csv = pdf_credit row
  ∧ csv_row csv = None.
Proof. vm_compute. done. Qed.

(** C8. On the PDF path a row with the debit text [-5,000.00] and no
    credit is emitted with the negative amount -5000.0, in the backend
    row and in the preview row. *)
Theorem pdf_negative_debit_negative_amount :
  let row := [Some "05-Jan-2024"; Some "REV1"; Some "05-Jan-2024";
              Some "-5,000.00"; None] in
  ∃ p b,
    parse_gtbank_pdf_to_rows [[[row]]] = ([p], [b])
    ∧ b_amount b = S754_finite true 5497558138880000 (-40)
    ∧ pp_mapped_amount p = b_amount b
    ∧ PyFloat.ge (b_amount b) PyFloat.zero = false.
Proof. vm_compute. eexists _, _. done. Qed.

(** ** Facts on [strip] *)

Module PyStrFacts.

Lemma lstripped_lstrip s : lstripped (lstrip s).
Proof.
  induction s as [|c s IH]; simpl; [done|].
  by destruct (is_space c) eqn:Hc.
Qed.

Lemma lstrip_lstripped s : lstripped s → lstrip s = s.
Proof. destruct s as [|c s]; simpl; [done|]. by intros ->. Qed.

Lemma lstripped_rstrip s : lstripped s → lstripped (rstrip s).
Proof.
  destruct s as [|c s]; simpl; [done|]. intros Hc.
  destruct (rstrip s); simpl; by rewrite ?Hc.
Qed.

Lemma rstrip_idemp s : rstrip (rstrip s) = rstrip s.
Proof.
  induction s as [|c s IH]; simpl; [done|].
  destruct (rstrip s) as [|d r] eqn:Hr.
  - destruct (is_space c) eqn:Hc; simpl; by rewrite ?Hc.
  - change (rstrip (String c (String d r))) with
      (match rstrip (String d r) with
       | EmptyString =>
           if is_space c then EmptyString else String c EmptyString
       | r' => String c r'
       end).
    by rewrite IH.
Qed.

Lemma strip_idemp s : strip (strip s) = strip s.
Proof.
  unfold strip.
  rewrite (lstrip_lstripped (rstrip (lstrip s)))
    by apply lstripped_rstrip, lstripped_lstrip.
  apply rstrip_idemp.
Qed.

Lemma strip_fixed_inv s : strip s = s → lstripped s ∧ rstrip s = s.
Proof.
  intros Hs. split.
  - rewrite <- Hs. apply lstripped_rstrip, lstripped_lstrip.
  - rewrite <- Hs at 1. unfold strip. by rewrite rstrip_idemp.
Qed.

Lemma app_nonempty_r (a b : string) : truthy b = true → truthy (a +:+ b) = true.
Proof. by destruct a, b. Qed.

Lemma rstrip_app_fixed (a b : string) :
  truthy b = true → rstrip b = b → rstrip (a +:+ b) = a +:+ b.
Proof.
  intros Hb Hfix. induction a as [|c a IH]; simpl; [done|].
  rewrite IH. change (String c a +:+ b) with (String c (a +:+ b)).
  generalize (app_nonempty_r a b Hb). by destruct (a +:+ b).
Qed.

(** Two non-empty stripped texts joined by a space are stripped. *)
Lemma strip_joined (a b : string) :
  strip a = a → strip b = b → truthy a = true → truthy b = true →
  strip (a +:+ " " +:+ b) = a +:+ " " +:+ b.
Proof.
  intros [Hla _]%strip_fixed_inv [_ Hrb]%strip_fixed_inv Ha Hb.
  unfold strip. rewrite lstrip_lstripped.
  - apply rstrip_app_fixed; [by apply (app_nonempty_r " " b)|].
    by apply (rstrip_app_fixed " " b).
  - by destruct a.
Qed.

Lemma truthy_true s : truthy s = true ↔ s ≠ "".
Proof. by destruct s. Qed.

End PyStrFacts.

(** ** The description of a PDF row *)

(** For stripped reference and remarks, the description is the join of
    the non-empty ones by a single space. *)
Lemma pdf_description_spec (reference remarks : string) :
  strip reference = reference → strip remarks = remarks →
  pdf_description reference remarks
  = match truthy reference, truthy remarks with
    | true, true => reference +:+ " " +:+ remarks
    | true, false => reference
    | false, true => remarks
    | false, false => ""
    end.
Proof.
  intros Href Hrem. unfold pdf_description. simpl filter.
  destruct reference as [|c ref], remarks as [|d rem]; simpl truthy.
  - done.
  - rewrite !filter_cons, filter_nil. simpl join. by rewrite Hrem.
  - rewrite !filter_cons, filter_nil. simpl join. by rewrite Href.
  - rewrite !filter_cons, filter_nil. simpl join.
    by rewrite (PyStrFacts.strip_joined (String c ref) (String d rem)).
Qed.

Lemma pdf_reference_stripped row : strip (pdf_reference row) = pdf_reference row.
Proof. apply PyStrFacts.strip_idemp. Qed.

Lemma pdf_remarks_stripped row : strip (pdf_remarks row) = pdf_remarks row.
Proof.
  unfold pdf_remarks. case_bool_decide; [apply PyStrFacts.strip_idemp|done].
Qed.

(** ** C9: the description of an emitted entry *)

(** The PDF extractor emits a row that has neither reference nor
    remarks, with the empty description. *)
Lemma pdf_accepts_row_without_description :
  let row := [Some "05-Jan-2024"; None; Some "05-Jan-2024"; Some "100.00";
              None] in
  (parse_gtbank_pdf_to_rows [[[row]]]).2
  = [BackendRow "05-Jan-2024" "" (S754_finite false 7036874417766400 (-46))
                "EXPENSE" None None].
Proof. vm_compute. done. Qed.

(** C9, as the code has it.  On the CSV path every emitted entry has a
    non-empty description, the stripped [description] field.  On the PDF
    path the description of an emitted entry is made of the stripped
    reference and remarks: both joined by one space when both are
    non-empty, the non-empty one when only one is, and the empty text
    when both are empty; the row is emitted in each case. *)
Theorem entry_description :
  (∀ row p b, csv_row row = Some (p, b) →
     b_description b = csv_desc row ∧ b_description b ≠ "")
  ∧ (∀ row p b, pdf_row row = Some (p, b) →
       b_description b
       = match truthy (pdf_reference row), truthy (pdf_remarks row) with
         | true, true => pdf_reference row +:+ " " +:+ pdf_remarks row
         | true, false => pdf_reference row
         | false, true => pdf_remarks row
         | false, false => ""
         end
       ∧ (b_description b = ""
          ↔ pdf_reference row = "" ∧ pdf_remarks row = "")).
Proof.
  split.
  - intros row p b Hrow.
    apply csv_row_Some in Hrow as (_ & Hd & _ & _ & _ & -> & _).
    split; [done|]. by apply PyStrFacts.truthy_true.
  - intros row p b Hrow.
    apply pdf_row_Some in Hrow as (_ & _ & _ & _ & _ & _ & _ & _ & -> & _).
    rewrite pdf_description_spec
      by (apply pdf_reference_stripped || apply pdf_remarks_stripped).
    split; [done|].
    destruct (pdf_reference row) as [|c ref], (pdf_remarks row) as [|d rem];
      simpl; split; try done; by intros [? ?].
Qed.

(** A CSV row and a PDF row with a reference and remarks. *)
Lemma entry_description_witness :
  let header := ["date"; "description"; "debit"; "credit"] in
  let crow := csv_dict header ["2024-01-06"; " Fuel "; "5000"; ""] in
  let prow := [Some "06-Jan-2024"; Some " REF9 "; Some "06-Jan-2024";
               Some "5,000.00"; None; Some "10.00"; Some "POS purchase"] in
  (∃ b, snd <$> csv_row crow = Some b ∧ b_description b = "Fuel")
  ∧ (∃ b, snd <$> pdf_row prow = Some b
          ∧ b_description b = "REF9 POS purchase").
Proof.
  intros header crow prow. destruct entry_description as [Hcsv Hpdf].
  split.
  - destruct (csv_row crow) as [[p b]|] eqn:Hrow; [|by vm_compute in Hrow].
    exists b. split; [done|].
    rewrite (proj1 (Hcsv crow p b Hrow)). reflexivity.
  - destruct (pdf_row prow) as [[p b]|] eqn:Hrow; [|by vm_compute in Hrow].
    exists b. split; [done|].
    rewrite (proj1 (Hpdf prow p b Hrow)). reflexivity.
Defined.

(** ** C3: a CSV header without a required column *)

Lemma elem_of_sorted (s : gset string) (name : string) :
  name ∈ sorted s ↔ name ∈ s.
Proof.
  unfold sorted. rewrite merge_sort_Permutation. apply elem_of_elements.
Qed.

Lemma NoDup_sorted (s : gset string) : NoDup (sorted s).
Proof.
  unfold sorted. rewrite merge_sort_Permutation. apply NoDup_elements.
Qed.

Lemma elem_of_missing_cols fieldnames (name : string) :
  name ∈ missing_cols fieldnames
  ↔ name ∈ ["date"; "description"; "debit"; "credit"]
    ∧ name ∉ default [] fieldnames.
Proof.
  unfold missing_cols, required_cols.
  rewrite elem_of_difference, elem_of_list_to_set.
  apply and_iff_compat_r.
  rewrite !elem_of_union, !elem_of_singleton, list_elem_of_In. simpl.
  intuition congruence.
Qed.

(** C3. When the header lacks one of the names [date], [description],
    [debit], [credit] (compared exactly), the CSV branch ends with the
    error whatever the data records are, none of which is looked at; the
    message lists, without repetition, exactly the required names that
    the header lacks. *)
Theorem csv_missing_headers_fail_fast (fieldnames : option (list string))
    (records : list (list string)) (name : string)
    (Hreq : name ∈ ["date"; "description"; "debit"; "credit"])
    (Hmiss : name ∉ default [] fieldnames) :
  let names := sorted (missing_cols fieldnames) in
  csv_extract fieldnames records
  = CsvError ("CSV is missing required columns: " +:+ join ", " names
                +:+ ". Make sure the header row includes: "
                +:+ "date, description, debit, credit.")
  ∧ (∀ records', csv_extract fieldnames records'
                 = csv_extract fieldnames records)
  ∧ (∀ col, col ∈ names
            ↔ col ∈ ["date"; "description"; "debit"; "credit"]
              ∧ col ∉ default [] fieldnames)
  ∧ NoDup names.
Proof.
  intros names.
  assert (missing_cols fieldnames ≠ ∅) as Hne.
  { intros Hempty.
    assert (name ∈ missing_cols fieldnames) as Hin
      by by apply elem_of_missing_cols.
    rewrite Hempty in Hin. by apply not_elem_of_empty in Hin. }
  split_and!.
  - by rewrite csv_extract_error.
  - intros records'. by rewrite !csv_extract_error.
  - intros col. subst names. rewrite elem_of_sorted.
    apply elem_of_missing_cols.
  - apply NoDup_sorted.
Qed.

(** A header that spells [Date] with a capital and has no [credit]. *)
Lemma csv_missing_headers_fail_fast_witness :
  csv_extract (Some ["Date"; "description"; "debit"])
              [["2024-01-06"; "Fuel"; "5000"]]
  = CsvError ("CSV is missing required columns: credit, date. "
                +:+ "Make sure the header row includes: "
                +:+ "date, description, debit, credit.").
Proof.
  refine (proj1 (csv_missing_headers_fail_fast
                   (Some ["Date"; "description"; "debit"])
                   [["2024-01-06"; "Fuel"; "5000"]] "date" _ _)).
  - apply list_elem_of_In. simpl. auto.
  - intros Hin%list_elem_of_In. simpl in Hin. intuition discriminate.
Defined.

(** ** C4: the commit payload *)

Lemma cell_truthy_spec c :
  cell_truthy c = true ↔ c ≠ CellNone ∧ c ≠ CellStr "".
Proof. destruct c as [| |[|a s]]; simpl; intuition congruence. Qed.

Lemma confirm_item_of_spec row :
  confirm_item_of row = if committable row then Some (reduced row) else None.
Proof.
  unfold confirm_item_of, committable, reduced.
  by destruct (d_import row), (cell_truthy (d_id row)),
    (cell_truthy (d_direction row)), (cell_truthy (d_category row)).
Qed.

Lemma commit_items_filter edited_df :
  commit_items edited_df
  = reduced <$> filter (λ row, committable row) edited_df.
Proof.
  rewrite commit_items_spec.
  induction edited_df as [|row rows IH]; [done|].
  rewrite filter_cons. csimpl. rewrite confirm_item_of_spec, IH.
  destruct (committable row); [|done].
  by rewrite decide_True.
Qed.

(** A ticked row whose id is the empty string is left out of the
    payload. *)
Lemma commit_leaves_out_ticked_row_without_id :
  let row := EditedRow true (CellStr "") (CellStr "EXPENSE")
                       (CellStr "FUEL") in
  filter (λ r, d_import r) [row] = [row] ∧ commit_items [row] = [].
Proof. split; reflexivity. Qed.

(** C4, as the code has it.  The commit payload holds, in table order,
    exactly the rows that are ticked and whose id, type and category, as
    read back from the edited table, are true as Python values: [None]
    and the empty string are not, the NaN that stands for a missing value
    is.  Each is reduced to the text of its id, type and category with a
    null note, the text of a NaN being [nan]; a row that is not ticked
    contributes nothing.  For a ticked row [r1] followed by an unticked
    row [r2] the payload is the one item of [r1]. *)
Theorem commit_payload_selected_rows :
  (∀ edited_df,
     commit_items edited_df
     = reduced <$> filter (λ row, committable row) edited_df)
  ∧ (∀ row, d_import row = false → confirm_item_of row = None)
  ∧ (∀ row,
       committable row = true
       ↔ d_import row = true
         ∧ d_id row ≠ CellNone ∧ d_id row ≠ CellStr ""
         ∧ d_direction row ≠ CellNone ∧ d_direction row ≠ CellStr ""
         ∧ d_category row ≠ CellNone ∧ d_category row ≠ CellStr "")
  ∧ commit_items
      [EditedRow true (CellStr "r1") (CellStr "EXPENSE") (CellStr "FUEL");
       EditedRow false (CellStr "r2") (CellStr "INCOME") (CellStr "SALES")]
    = [ConfirmItem "r1" "EXPENSE" "FUEL" None]
  ∧ commit_items
      [EditedRow true CellNaN (CellStr "EXPENSE") (CellStr "FUEL")]
    = [ConfirmItem "nan" "EXPENSE" "FUEL" None].
Proof.
  split_and!.
  - apply commit_items_filter.
  - intros row Hrow. rewrite confirm_item_of_spec. unfold committable.
    by rewrite Hrow.
  - intros [imp id dir cat]. unfold committable. simpl.
    rewrite !andb_true_iff, !cell_truthy_spec. tauto.
  - done.
  - done.
Qed.

(** An unticked row is not in the payload. *)
Lemma commit_payload_selected_rows_witness :
  let unticked := EditedRow false (CellStr "r2") (CellStr "INCOME")
                            (CellStr "SALES") in
  confirm_item_of unticked = None.
Proof.
  intros unticked.
  exact (proj1 (proj2 commit_payload_selected_rows) unticked eq_refl).
Defined.

(** ** C5: the review table of an imported statement *)

(** C5. The review table has one row per row of the statement, in
    order.  Each is ticked, carries the id of its row, has as type the
    suggested direction, or INCOME when that is missing or empty, and has
    as category the suggested category when it is one of
    [CATEGORY_OPTIONS] and MISC otherwise, so the category is always one
    of [CATEGORY_OPTIONS]. *)
Theorem review_initialization (st : statement) :
  let rows := default [] (s_rows st) in
  length (review_table st) = length rows
  ∧ Forall2
      (λ r d,
         e_import d = true
         ∧ e_id d = r_id r
         ∧ e_direction d
           = Some (match r_directionSuggested r with
                   | Some s => if decide (s = "") then "INCOME" else s
                   | None => "INCOME"
                   end)
         ∧ e_category d
           = Some (match r_categorySuggested r with
                   | Some c =>
                       if bool_decide (c ∈ CATEGORY_OPTIONS) then c else "MISC"
                   | None => "MISC"
                   end)
         ∧ ∃ c, e_category d = Some c ∧ c ∈ CATEGORY_OPTIONS)
      rows (review_table st).
Proof.
  intros rows. rewrite review_table_spec. fold rows.
  split; [by rewrite length_fmap|].
  apply Forall2_fmap_r, Forall_Forall2_diag, Forall_forall.
  intros r _. unfold editor_row_of. simpl.
  assert ("MISC" ∈ CATEGORY_OPTIONS) as Hmisc
    by (apply list_elem_of_In; simpl; auto 10).
  split_and!; [done|done| | |].
  - destruct (r_directionSuggested r) as [[|c s]|]; done.
  - destruct (r_categorySuggested r) as [[|c s]|]; simpl or_default.
    + by vm_compute.
    + repeat case_bool_decide; done.
    + by vm_compute.
  - case_bool_decide as Hin; eexists; (split; [reflexivity|]); done.
Qed.

(** ** C6: saving with nothing selected *)

(** With at least one item the handler calls the confirm service. *)
Lemma on_save_click_calls_confirm backend st edited_df w :
  commit_items edited_df ≠ [] →
  ∃ later,
    w_events (on_save_click backend st edited_df w).2
    = w_events w
        ++ ConfirmCall (s_id st) (commit_items edited_df) :: later.
Proof.
  intros Hne. unfold on_save_click.
  destruct (commit_items edited_df) as [|item items] eqn:Hitems; [done|].
  unfold call_confirm, mbind, ui_bind, emit, mret, ui_ret. simpl.
  destruct (backend (s_id st) (item :: items)) as [error|result]; simpl.
  - unfold show_api_error, mbind, ui_bind, emit, mret, ui_ret.
    destruct error as [err details|text]; simpl;
      [destruct (opt_truthy details); simpl|];
      rewrite <- !(assoc_L (++)); by eexists.
  - rewrite <- !(assoc_L (++)). by eexists.
Qed.

(** C6. When no row of the edited table is ticked the payload is empty
    and the handler only shows the warning: the session state is the one
    before the click, the one new event is the warning, and no call to
    the confirm service is among the events it adds. *)
Theorem commit_refused_when_nothing_selected (backend : confirm_service)
    (st : statement) (edited_df : list edited_row) (w : world)
    (Hnone : Forall (λ row, d_import row = false) edited_df) :
  commit_items edited_df = []
  ∧ on_save_click backend st edited_df w
    = (tt, World (w_session w)
                 (w_events w ++ [StWarning "No rows selected for import."]))
  ∧ w_session (on_save_click backend st edited_df w).2 = w_session w
  ∧ ∃ added,
      w_events (on_save_click backend st edited_df w).2 = w_events w ++ added
      ∧ Forall (λ e, is_confirm_call e = false) added.
Proof.
  assert (commit_items edited_df = []) as Hitems.
  { rewrite commit_items_filter.
    induction Hnone as [|row rows Hrow _ IH]; [done|].
    rewrite filter_cons, decide_False; [done|].
    unfold committable. rewrite Hrow. simpl. tauto. }
  unfold on_save_click. rewrite Hitems. unfold emit. simpl.
  split_and!; [done..|].
  eexists. split; [reflexivity|]. by repeat constructor.
Qed.

(** Two unticked rows of a loaded statement. *)
Lemma commit_refused_when_nothing_selected_witness :
  let st := Statement (Some "s1") None in
  let edited_df :=
    [EditedRow false (CellStr "r1") (CellStr "EXPENSE") (CellStr "FUEL");
     EditedRow false (CellStr "r2") (CellStr "INCOME") (CellStr "SALES")] in
  let w := World (SessionState (Some st)) [] in
  on_save_click (λ _ _, inr (ConfirmResult (Some (Some 2%N)))) st edited_df w
  = (tt, World (SessionState (Some st))
               [StWarning "No rows selected for import."]).
Proof.
  intros st edited_df w.
  refine (proj1 (proj2 (commit_refused_when_nothing_selected _ st edited_df w _))).
  repeat constructor.
Defined.

(** * Further properties of the import code *)

(** ** Reading order *)

(** The PDF extractor looks at rows only: the outputs of two documents put
    one after the other are the outputs of each put one after the other,
    and two documents with the same rows in reading order, however they
    are split into tables and pages, have the same outputs. *)
Theorem pdf_pages_compose :
  (∀ pages1 pages2,
     parse_gtbank_pdf_to_rows (pages1 ++ pages2)
     = ((parse_gtbank_pdf_to_rows pages1).1
          ++ (parse_gtbank_pdf_to_rows pages2).1,
        (parse_gtbank_pdf_to_rows pages1).2
          ++ (parse_gtbank_pdf_to_rows pages2).2))
  ∧ (∀ pages pages',
       pdf_input_rows pages = pdf_input_rows pages' →
       parse_gtbank_pdf_to_rows pages = parse_gtbank_pdf_to_rows pages').
Proof.
  split.
  - intros pages1 pages2. rewrite !parse_gtbank_pdf_to_rows_spec.
    unfold pdf_input_rows. simpl.
    by rewrite !concat_app, omap_app, !fmap_app.
  - intros pages pages' Hrows.
    by rewrite !parse_gtbank_pdf_to_rows_spec, Hrows.
Qed.

(** Two rows in one table, in two tables of a page, and on two pages. *)
Lemma pdf_pages_compose_witness :
  let r1 := [Some "06-Jan-2024"; Some "REF9"; Some "06-Jan-2024";
             Some "5,000.00"; None] in
  let r2 := [Some "08-Jan-2024"; Some "REF10"; Some "08-Jan-2024";
             None; Some "120.50"] in
  parse_gtbank_pdf_to_rows [[[r1; r2]]] = parse_gtbank_pdf_to_rows [[[r1]; [r2]]]
  ∧ parse_gtbank_pdf_to_rows [[[r1; r2]]]
    = parse_gtbank_pdf_to_rows [[[r1]]; []; [[]; [r2]]].
Proof.
  intros r1 r2. split; apply (proj2 pdf_pages_compose); reflexivity.
Defined.

(** With a complete header the CSV branch handles the records one by
    one: the row lists of two runs of records put one after the other are
    the row lists of each put one after the other, and an empty record
    between them changes nothing. *)
Theorem csv_records_compose (fieldnames : option (list string))
    (records1 records2 : list (list string))
    (Hheader : missing_cols fieldnames = ∅) :
  ∃ p1 b1 p2 b2,
    csv_extract fieldnames records1 = CsvRows p1 b1
    ∧ csv_extract fieldnames records2 = CsvRows p2 b2
    ∧ csv_extract fieldnames (records1 ++ records2)
      = CsvRows (p1 ++ p2) (b1 ++ b2)
    ∧ csv_extract fieldnames (records1 ++ [] :: records2)
      = csv_extract fieldnames (records1 ++ records2).
Proof.
  do 4 eexists. rewrite !csv_extract_rows by done.
  split_and!; [reflexivity..| |].
  - unfold dict_reader. by rewrite filter_app, fmap_app, omap_app, !fmap_app.
  - unfold dict_reader.
    rewrite !filter_app, filter_cons, decide_False; [done|]. by intros H.
Qed.

Lemma csv_records_compose_witness :
  let header := Some ["date"; "description"; "debit"; "credit"] in
  let r1 := ["2024-01-05"; "POS deposit"; ""; "15000"] in
  let r2 := ["2024-01-06"; "Fuel"; "5000"; ""] in
  csv_extract header [r1; []; r2] = csv_extract header [r1; r2].
Proof.
  intros header r1 r2.
  destruct (csv_records_compose header [r1] [r2] eq_refl)
    as (p1 & b1 & p2 & b2 & _ & _ & _ & H).
  exact H.
Defined.

(** ** Preview rows and backend rows *)

Lemma pdf_row_agree row p b : pdf_row row = Some (p, b) → pdf_rows_agree p b.
Proof.
  unfold pdf_row. intros H. destruct row as [|c row]; [done|].
  destruct (is_header_row (c :: row)); [done|].
  case_bool_decide; [done|].
  destruct (truthy (strip (cell_text (c :: row) 0))); [|done].
  simpl negb in H. cbv iota in H.
  destruct (PyFloat.eq _ _ && PyFloat.eq _ _); [done|].
  destruct (PyFloat.gt _ PyFloat.zero) eqn:Hgt;
    simplify_eq; unfold pdf_rows_agree; simpl; by rewrite Hgt.
Qed.

(** The two outputs of the PDF extractor have the same length, and the
    rows at the same position agree: same date, direction and amount, the
    description made of the previewed reference and remarks, the
    reference null when it is empty, no counterparty; the direction is
    INCOME with the credit as amount when the credit is greater than
    zero and EXPENSE with the debit as amount otherwise. *)
Theorem pdf_preview_matches_backend (pages : list (list pdf_table)) :
  Forall2 pdf_rows_agree (parse_gtbank_pdf_to_rows pages).1
          (parse_gtbank_pdf_to_rows pages).2.
Proof.
  rewrite parse_gtbank_pdf_to_rows_spec. simpl.
  apply Forall2_fmap, Forall_Forall2_diag, Forall_forall.
  intros [p b] (row & _ & Hrow)%list_elem_of_omap.
  by eapply pdf_row_agree.
Qed.

Lemma csv_row_agree row p b :
  csv_row row = Some (p, b) → csv_rows_agree p b ∧ csv_backend_row_ok b.
Proof.
  unfold csv_row. intros H.
  destruct (truthy (strip (csv_field row "date"))) eqn:Hdate; [|done].
  destruct (truthy (strip (csv_field row "description"))) eqn:Hdesc; [|done].
  apply PyStrFacts.truthy_true in Hdate, Hdesc.
  simpl in H.
  destruct (PyFloat.gt (parse_amount (strip (remove_commas (csv_field row "credit")))) _)
    eqn:Hc.
  - simplify_eq. unfold csv_rows_agree, csv_backend_row_ok. simpl.
    rewrite !PyStrFacts.strip_idemp. split_and!; auto.
  - destruct (PyFloat.gt _ _) eqn:Hd in H; [|done].
    simplify_eq. unfold csv_rows_agree, csv_backend_row_ok. simpl.
    rewrite !PyStrFacts.strip_idemp. split_and!; auto.
Qed.

(** When the CSV branch ends with rows, the two lists have the same
    length and the rows at the same position agree; every backend row has
    a stripped, non-empty date and description, an amount greater than
    zero that is the credit for INCOME and the debit for EXPENSE, and
    neither reference nor counterparty. *)
Theorem csv_preview_matches_backend (fieldnames : option (list string))
    (records : list (list string)) (preview : list csv_preview_row)
    (backend : list backend_row)
    (Hrows : csv_extract fieldnames records = CsvRows preview backend) :
  Forall2 csv_rows_agree preview backend ∧ Forall csv_backend_row_ok backend.
Proof.
  destruct (decide (missing_cols fieldnames = ∅)) as [Hm|Hm];
    [|by rewrite csv_extract_error in Hrows].
  rewrite csv_extract_rows in Hrows by done. simplify_eq. split.
  - apply Forall2_fmap, Forall_Forall2_diag, Forall_forall.
    intros [p b] (row & _ & Hrow)%list_elem_of_omap.
    by apply csv_row_agree in Hrow as [? _].
  - apply Forall_fmap, Forall_forall.
    intros [p b] (row & _ & Hrow)%list_elem_of_omap.
    by apply csv_row_agree in Hrow as [_ ?].
Qed.

Lemma csv_preview_matches_backend_witness :
  let header := Some ["date"; "description"; "debit"; "credit"] in
  let records := [["2024-01-05"; " POS deposit "; ""; "15,000"];
                  ["2024-01-06"; "Fuel"; "5000"; ""]] in
  Forall csv_backend_row_ok
         (omap csv_row (dict_reader header records)).*2.
Proof.
  intros header records.
  exact (proj2 (csv_preview_matches_backend header records _ _
                  (csv_extract_rows header records eq_refl))).
Defined.

(** ** The cells of a PDF row *)

Lemma cell_text_fmap_some row i :
  cell_text ((λ c, Some (or_empty c)) <$> row) i = cell_text row i.
Proof.
  unfold cell_text, pdf_table_row, pdf_cell. rewrite list_lookup_fmap.
  by destruct (row !! i) as [[s|]|].
Qed.

(** A cell that pdfplumber reports as [None] is read as an empty cell:
    replacing every [None] of a row by the empty text changes nothing in
    what the loop body does with the row. *)
Theorem pdf_none_cell_is_empty_cell (row : pdf_table_row) :
  pdf_row ((λ c, Some (or_empty c)) <$> row) = pdf_row row.
Proof.
  unfold pdf_row, is_header_row, joined.
  rewrite !cell_text_fmap_some, length_fmap, <- list_fmap_compose.
  assert ((or_empty ∘ (λ c, Some (or_empty c))) <$> row = or_empty <$> row)
    as -> by (by apply list_fmap_ext; intros ? [?|] ?).
  by destruct row.
Qed.

Lemma cell_text_app_l row extra i :
  i < length row → cell_text (row ++ extra) i = cell_text row i.
Proof.
  intros Hi. unfold cell_text, pdf_table_row, pdf_cell.
  by rewrite lookup_app_l.
Qed.

(** A row with fewer than five cells is skipped.  Of a row with seven
    cells or more only the first seven are read, apart from the header
    test which looks at all of them: cells added after the seventh change
    nothing when the row is not taken for a header row with or without
    them. *)
Theorem pdf_row_cells :
  (∀ row, length row < 5 → pdf_row row = None)
  ∧ (∀ row extra,
       7 ≤ length row →
       is_header_row row = false → is_header_row (row ++ extra) = false →
       pdf_row (row ++ extra) = pdf_row row).
Proof.
  split.
  - intros row Hlen. unfold pdf_row. destruct row; [done|].
    destruct (is_header_row _); [done|]. by rewrite bool_decide_eq_true_2.
  - intros row extra Hlen Hrow Hext. unfold pdf_row.
    rewrite Hrow, Hext, !cell_text_app_l by lia.
    rewrite length_app.
    rewrite !(bool_decide_eq_false_2 (_ < 5)) by lia.
    rewrite !(bool_decide_eq_true_2 (5 < _)) by lia.
    rewrite !(bool_decide_eq_true_2 (6 < _)) by lia.
    destruct row; [simpl in Hlen; lia|done].
Qed.

Lemma pdf_row_cells_witness :
  let short := [Some "06-Jan-2024"; Some "REF9"; Some "5,000.00"; None] in
  let row := [Some "06-Jan-2024"; Some "REF9"; Some "06-Jan-2024";
              Some "5,000.00"; None; Some "10.00"; Some "POS purchase"] in
  pdf_row short = None
  ∧ pdf_row (row ++ [Some "branch 014"; None]) = pdf_row row.
Proof.
  intros short row. destruct pdf_row_cells as [Hshort Hextra]. split.
  - apply Hshort. simpl. lia.
  - apply Hextra; [simpl; lia|reflexivity..].
Defined.

(** ** The columns of a CSV file *)

Lemma csv_row_ext (d1 d2 : gmap string (option string)) :
  (∀ key, key ∈ ["date"; "description"; "debit"; "credit"] →
          csv_field d1 key = csv_field d2 key) →
  csv_row d1 = csv_row d2.
Proof.
  intros H. unfold csv_row.
  rewrite (H "date"), (H "description"), (H "debit"), (H "credit");
    [done|apply list_elem_of_In; simpl; auto..].
Qed.

Lemma csv_dict_full (names vals : list string) :
  length vals = length names →
  csv_dict names vals
  = foldl (λ d kv, <[kv.1 := kv.2]> d) ∅ (zip names (Some <$> vals)).
Proof.
  intros Hlen. unfold csv_dict.
  by rewrite Hlen, Nat.sub_diag, app_nil_r.
Qed.

(** A column that is none of the four required ones is ignored: adding
    it after the other columns, with any value in the record, gives the
    same preview row and backend row, or the same skip. *)
Theorem csv_extra_column_ignored (names vals : list string)
    (extra value : string)
    (Hlen : length vals = length names)
    (Hextra : extra ∉ ["date"; "description"; "debit"; "credit"]) :
  csv_row (csv_dict (names ++ [extra]) (vals ++ [value]))
  = csv_row (csv_dict names vals).
Proof.
  apply csv_row_ext. intros key Hkey.
  rewrite !csv_dict_full by (rewrite ?length_app; simpl; lia).
  rewrite fmap_app, zip_with_app by (by rewrite length_fmap).
  rewrite foldl_app. simpl. unfold csv_field.
  rewrite lookup_insert_ne; [done|]. by intros ->.
Qed.

Lemma csv_extra_column_ignored_witness :
  csv_row (csv_dict ["date"; "description"; "debit"; "credit"; "balance"]
                    ["2024-01-06"; "Fuel"; "5000"; ""; "12,500.00"])
  = csv_row (csv_dict ["date"; "description"; "debit"; "credit"]
                      ["2024-01-06"; "Fuel"; "5000"; ""]).
Proof.
  refine (csv_extra_column_ignored
            ["date"; "description"; "debit"; "credit"]
            ["2024-01-06"; "Fuel"; "5000"; ""] "balance" "12,500.00"
            eq_refl _).
  intros Hin%list_elem_of_In. simpl in Hin. intuition discriminate.
Defined.

Lemma foldl_insert_list_to_map (l : list (string * option string)) :
  NoDup l.*1 →
  foldl (λ d kv, <[kv.1 := kv.2]> d) ∅ l
  =@{gmap string (option string)} list_to_map l.
Proof.
  induction l as [|[k v] l IH] using rev_ind; [done|].
  rewrite fmap_app, NoDup_app. intros (Hl & Hk & _).
  rewrite foldl_snoc, IH by done. simpl.
  rewrite list_to_map_snoc; [done|].
  intros Hin. apply (Hk k Hin). simpl. apply list_elem_of_here.
Qed.

(** The order of the columns does not matter: when no field name is
    repeated, a header and a record of the same length give the same
    dictionary as the same columns in any other order. *)
Theorem csv_column_order_irrelevant (names vals names' vals' : list string)
    (Hdup : NoDup names)
    (Hlen : length vals = length names)
    (Hlen' : length vals' = length names')
    (Hperm : zip names' vals' ≡ₚ zip names vals) :
  csv_dict names' vals' = csv_dict names vals
  ∧ csv_row (csv_dict names' vals') = csv_row (csv_dict names vals).
Proof.
  assert (csv_dict names' vals' = csv_dict names vals) as Heq; [|by rewrite Heq].
  assert (zip names' (Some <$> vals') ≡ₚ zip names (Some <$> vals)) as Hperm'.
  { assert (∀ (ns vs : list string),
              zip ns (Some <$> vs) = prod_map id Some <$> zip ns vs) as Hzip.
    { intros ns. induction ns as [|n ns IH]; intros [|v vs]; simpl; [done..|].
      by rewrite IH. }
    by rewrite !Hzip, Hperm. }
  assert (NoDup (zip names (Some <$> vals)).*1) as Hnd.
  { by rewrite fst_zip by (rewrite length_fmap; lia). }
  rewrite !csv_dict_full by done.
  rewrite !foldl_insert_list_to_map; [|done|by rewrite Hperm'].
  symmetry. by apply list_to_map_proper.
Qed.

Lemma csv_column_order_irrelevant_witness :
  csv_row (csv_dict ["credit"; "date"; "debit"; "description"]
                    [""; "2024-01-06"; "5000"; "Fuel"])
  = csv_row (csv_dict ["date"; "description"; "debit"; "credit"]
                      ["2024-01-06"; "Fuel"; "5000"; ""]).
Proof.
  refine (proj2 (csv_column_order_irrelevant
                   ["date"; "description"; "debit"; "credit"]
                   ["2024-01-06"; "Fuel"; "5000"; ""]
                   ["credit"; "date"; "debit"; "description"]
                   [""; "2024-01-06"; "5000"; "Fuel"] _ eq_refl eq_refl _)).
  - apply (bool_decide_unpack _). vm_compute. exact I.
  - apply (bool_decide_unpack _). vm_compute. exact I.
Defined.

(** ** File names *)

Module PyTextFacts.
Import PyText.

Lemma lower_char_idemp c : lower_char (lower_char c) = lower_char c.
Proof. by destruct c as [[] [] [] [] [] [] [] []]. Qed.

Lemma lower_idemp s : lower (lower s) = lower s.
Proof.
  induction s as [|c s IH]; simpl; [done|].
  by rewrite lower_char_idemp, IH.
Qed.

Lemma endswith_nil suffix : endswith "" suffix = String.eqb "" suffix.
Proof. unfold endswith. by rewrite orb_false_r. Qed.

Lemma endswith_cons c s suffix :
  endswith (String c s) suffix
  = String.eqb (String c s) suffix || endswith s suffix.
Proof. done. Qed.

Lemma endswith_length s suffix :
  endswith s suffix = true → String.length suffix ≤ String.length s.
Proof.
  induction s as [|c s IH].
  - rewrite endswith_nil. by intros <-%String.eqb_eq.
  - rewrite endswith_cons.
    intros [<-%String.eqb_eq|H%IH]%orb_true_iff; simpl; lia.
Qed.

(** Two suffixes of the same length of one text are equal. *)
Lemma endswith_same_length s a b :
  endswith s a = true → endswith s b = true →
  String.length a = String.length b → a = b.
Proof.
  induction s as [|c s IH].
  - rewrite !endswith_nil. by intros <-%String.eqb_eq <-%String.eqb_eq.
  - rewrite !endswith_cons.
    intros [<-%String.eqb_eq|Ha]%orb_true_iff
           [<-%String.eqb_eq|Hb]%orb_true_iff Hlen; [done| | |by apply IH].
    + apply endswith_length in Hb. simpl in Hlen. lia.
    + apply endswith_length in Ha. simpl in Hlen. lia.
Qed.

Lemma csv_name_is_not_pdf s :
  endswith s ".csv" = true → endswith s ".pdf" = false.
Proof.
  intros Hcsv. destruct (endswith s ".pdf") eqn:Hpdf; [|done].
  by pose proof (endswith_same_length s _ _ Hcsv Hpdf eq_refl).
Qed.

End PyTextFacts.

(** ** The upload part of the statement tab *)

Section upload_facts.
Context {bytes : Type}.
Variable csv_reader : bytes → csv_read.
Variable pdf_tables : bytes → string + list (list pdf_table).
Variable backend : import_service.

(** The file type is decided by the end of the file name, whatever the
    case of its letters.  A name that ends neither with [.csv] nor with
    [.pdf] is refused: the one event is the error, the session state is
    kept, the page returns, and the import service is not called even
    when the import button is pressed. *)
Theorem upload_file_type (filename : string) (file_bytes : bytes) :
  read_statement csv_reader pdf_tables filename file_bytes
  = read_statement csv_reader pdf_tables (PyText.lower filename) file_bytes
  ∧ (PyText.endswith (PyText.lower filename) ".csv" = false →
     PyText.endswith (PyText.lower filename) ".pdf" = false →
     ∀ hustle_id import_clicked s,
       upload_section csv_reader pdf_tables backend hustle_id
                      (Some (filename, file_bytes)) import_clicked s
       = (false, s,
          [PUi (StError "Unsupported file type. Please upload a CSV or PDF.")])).
Proof.
  split.
  - unfold read_statement. by rewrite PyTextFacts.lower_idemp.
  - intros Hcsv Hpdf hustle_id import_clicked s.
    unfold upload_section, read_statement. by rewrite Hcsv, Hpdf.
Qed.

(** A call to the import service is made only when the button is
    pressed, at most once, for the selected hustle, with the name of the
    file and a non-empty list of rows: the backend rows of the CSV branch
    under the source [CSV upload] when the lower-cased name ends with
    [.csv], and the backend rows of the PDF extractor under the source
    [PDF upload] when it ends with [.pdf]. *)
Theorem import_call_payload (hustle_id filename : string)
    (file_bytes : bytes) (import_clicked : bool) (s : session_state)
    (hid : string) (payload : import_payload)
    (Hcall : PImportCall hid payload
             ∈ (upload_section csv_reader pdf_tables backend hustle_id
                               (Some (filename, file_bytes)) import_clicked
                               s).2) :
  import_clicked = true
  ∧ hid = hustle_id
  ∧ ip_fileName payload = filename
  ∧ ip_rows payload ≠ []
  ∧ length (filter (λ e, is_import_call e)
                   (upload_section csv_reader pdf_tables backend hustle_id
                                   (Some (filename, file_bytes))
                                   import_clicked s).2) = 1
  ∧ ((PyText.endswith (PyText.lower filename) ".csv" = true
      ∧ ip_source payload = "CSV upload"
      ∧ ∃ fieldnames records preview,
          csv_reader file_bytes = CsvRead fieldnames records
          ∧ csv_extract fieldnames records
            = CsvRows preview (ip_rows payload))
     ∨ (PyText.endswith (PyText.lower filename) ".pdf" = true
        ∧ ip_source payload = "PDF upload"
        ∧ ∃ pages,
            pdf_tables file_bytes = inr pages
            ∧ ip_rows payload = (parse_gtbank_pdf_to_rows pages).2)).
Proof.
  revert Hcall. unfold upload_section.
  destruct (read_statement csv_reader pdf_tables filename file_bytes)
    as [msg|e|preview rows] eqn:Hread.
  { simpl. by intros [=]%list_elem_of_singleton. }
  { simpl. by intros [=]%list_elem_of_singleton. }
  destruct rows as [|row rows].
  { simpl. by intros [=]%list_elem_of_singleton. }
  destruct import_clicked.
  2:{ simpl. by intros [=]%list_elem_of_singleton. }
  assert (∀ tail,
            Forall (λ e, is_import_call e = false) tail →
            PImportCall hid payload
              ∈ [PDataframe (first_100 preview)]
                  ++ PImportCall hustle_id
                       (build_import_payload filename (row :: rows)) :: tail →
            hid = hustle_id
            ∧ payload = build_import_payload filename (row :: rows)
            ∧ length (filter (λ e, is_import_call e)
                        ([PDataframe (first_100 preview)]
                           ++ PImportCall hustle_id
                                (build_import_payload filename (row :: rows))
                              :: tail)) = 1) as Hone.
  { intros tail Htail Hin. simpl in Hin.
    apply elem_of_cons in Hin as [[=]|Hin].
    apply elem_of_cons in Hin as [[= -> ->]|Hin].
    - split_and!; [done..|]. cbn [app].
      rewrite filter_cons, decide_False by (simpl; tauto).
      rewrite filter_cons, decide_True by done. cbn [length]. f_equal.
      induction Htail as [|e tail He _ IH]; [done|].
      rewrite filter_cons, decide_False; [done|]. rewrite He. simpl. tauto.
    - rewrite Forall_forall in Htail. by specialize (Htail _ Hin). }
  assert (∀ (P : Prop), (hid = hustle_id
            ∧ payload = build_import_payload filename (row :: rows) ∧ P) →
          true = true ∧ hid = hustle_id ∧ ip_fileName payload = filename
          ∧ ip_rows payload ≠ [] ∧ P
          ∧ ((PyText.endswith (PyText.lower filename) ".csv" = true
              ∧ ip_source payload = "CSV upload"
              ∧ ∃ fieldnames records preview0,
                  csv_reader file_bytes = CsvRead fieldnames records
                  ∧ csv_extract fieldnames records
                    = CsvRows preview0 (ip_rows payload))
             ∨ (PyText.endswith (PyText.lower filename) ".pdf" = true
                ∧ ip_source payload = "PDF upload"
                ∧ ∃ pages,
                    pdf_tables file_bytes = inr pages
                    ∧ ip_rows payload = (parse_gtbank_pdf_to_rows pages).2)))
    as Hfin.
  { intros P (-> & -> & HP). split_and!; [done..|].
    revert Hread. unfold read_statement, build_import_payload. simpl.
    destruct (PyText.endswith (PyText.lower filename) ".csv") eqn:Hcsv.
    - rewrite (PyTextFacts.csv_name_is_not_pdf _ Hcsv).
      destruct (csv_reader file_bytes) as [fieldnames records|e|fieldnames e];
        [|done|by case_decide].
      destruct (csv_extract fieldnames records) as [|pre back] eqn:Hex; [done|].
      intros [= _ ->]. left. split_and!; [done..|].
      by exists fieldnames, records, pre.
    - destruct (PyText.endswith (PyText.lower filename) ".pdf"); [|done].
      destruct (pdf_tables file_bytes) as [e|pages]; [done|].
      destruct (parse_gtbank_pdf_to_rows pages) as [pre back] eqn:Hparse.
      intros [= _ ->]. right. split_and!; [done..|]. exists pages.
      by rewrite Hparse. }
  destruct (backend hustle_id (build_import_payload filename (row :: rows)))
    as [error|st]; simpl snd; intros Hin; apply Hfin; eapply Hone; try done.
  - destruct error as [err details|text]; simpl;
      [destruct (opt_truthy details)|]; by repeat constructor.
  - by repeat constructor.
Qed.


End upload_facts.

Lemma import_call_payload_witness :
  let csv_reader (_ : unit) :=
    CsvRead (Some ["date"; "description"; "debit"; "credit"])
            [["2024-01-06"; "Fuel"; "5000"; ""]] in
  let pdf_tables (_ : unit) : string + list (list pdf_table) :=
    inl "No /Root object! - Is this really a PDF?" in
  let backend (_ : string) (_ : import_payload) : api_error + statement :=
    inr (Statement (Some "s1") (Some [])) in
  let a5000 := S754_finite false 5497558138880000 (-40) in
  let payload :=
    ImportPayload "CSV upload" "January.CSV"
                  [BackendRow "2024-01-06" "Fuel" a5000 "EXPENSE" None None] in
  length (filter (λ e, is_import_call e)
            (upload_section csv_reader pdf_tables backend "h1"
                            (Some ("January.CSV", tt)) true
                            (SessionState None)).2) = 1.
Proof.
  intros csv_reader pdf_tables backend a5000 payload.
  refine (proj1 (proj2 (proj2 (proj2 (proj2
            (import_call_payload csv_reader pdf_tables backend "h1"
               "January.CSV" tt true (SessionState None) "h1" payload _)))))).
  vm_compute. apply list_elem_of_further, list_elem_of_here.
Defined.

Lemma upload_file_type_witness :
  upload_section (λ _ : unit, CsvRead None []) (λ _, inr [])
                 (λ _ _, inr (Statement None None)) "h1"
                 (Some ("statement.xlsx", tt)) true (SessionState None)
  = (false, SessionState None,
     [PUi (StError "Unsupported file type. Please upload a CSV or PDF.")]).
Proof.
  exact (proj2 (upload_file_type (λ _ : unit, CsvRead None []) (λ _, inr [])
                  (λ _ _, inr (Statement None None)) "statement.xlsx" tt)
               eq_refl eq_refl "h1" true (SessionState None)).
Defined.

(** ** Reviewing and saving *)

Lemma or_default_truthy x d : truthy d = true → truthy (or_default x d) = true.
Proof.
  intros Hd. unfold or_default. destruct x as [s|]; [|done].
  by destruct (truthy s) eqn:Hs.
Qed.

Lemma cell_read_back_Some s c : cell_read_back (Some s) c = true → c = CellStr s.
Proof.
  destruct c as [| |t]; simpl; try done. by intros ->%String.eqb_eq.
Qed.

Lemma confirm_item_of_read_back r row :
  read_back (editor_row_of r) row = true →
  confirm_item_of row = untouched_item r row.
Proof.
  unfold read_back. rewrite !andb_true_iff.
  intros [[[Himp%Bool.eqb_prop Hid] Hdir%cell_read_back_Some]
            Hcat%cell_read_back_Some].
  rewrite confirm_item_of_spec.
  unfold committable, reduced, untouched_item, nan_item, default_item.
  rewrite Himp, Hdir, Hcat. simpl in *.
  rewrite (or_default_truthy _ "INCOME") by done.
  assert (truthy
            (if bool_decide
                  (or_default (r_categorySuggested r) "MISC" ∉ CATEGORY_OPTIONS)
             then "MISC" else or_default (r_categorySuggested r) "MISC")
          = true) as ->.
  { case_bool_decide; [done|]. by apply or_default_truthy. }
  rewrite !andb_true_r.
  destruct (r_id r) as [s|].
  - apply cell_read_back_Some in Hid as ->. simpl. by destruct (truthy s).
  - by destruct (d_id row).
Qed.

Lemma filter_all_true {A} (f : A → bool) (l : list A) :
  Forall (λ x, f x = true) l → filter (λ x, f x) l = l.
Proof.
  induction 1 as [|x l Hx _ IH]; [done|].
  rewrite filter_cons, decide_True, IH; [done|]. by rewrite Hx.
Qed.

(** Saving the review table as it comes back from the editor when
    nothing was edited: strings come back as they are, a missing value as
    [None] or as NaN.  The payload has, in order, the defaulted item of
    every row of the statement whose id is a non-empty string; a row
    without id is left out when its id comes back as [None], and is sent
    under the id [nan] when it comes back as NaN.  So when every row has
    an id the payload is the defaulted items of the rows with a non-empty
    id, and every row is sent when every id is non-empty. *)
Theorem save_untouched_review_table (st : statement)
    (edited_df : list edited_row)
    (Hread : Forall2 (λ d row, read_back d row = true)
                     (review_table st) edited_df) :
  let rows := default [] (s_rows st) in
  commit_items edited_df
  = omap (λ p, untouched_item p.1 p.2) (zip rows edited_df)
  ∧ length edited_df = length rows
  ∧ (Forall (λ r, is_Some (r_id r)) rows →
     commit_items edited_df
     = default_item <$> filter (λ r, opt_truthy (r_id r)) rows)
  ∧ (Forall (λ r, opt_truthy (r_id r) = true) rows →
     commit_items edited_df = default_item <$> rows
     ∧ length (commit_items edited_df) = length rows).
Proof.
  intros rows. rewrite review_table_spec in Hread. fold rows in Hread.
  apply Forall2_fmap_l in Hread. rewrite commit_items_spec.
  assert (omap confirm_item_of edited_df
          = omap (λ p, untouched_item p.1 p.2) (zip rows edited_df)) as Hzip.
  { induction Hread as [|r row rows' edited' Hrow _ IH]; [done|].
    csimpl. by rewrite (confirm_item_of_read_back _ _ Hrow), IH. }
  assert (Forall (λ r, is_Some (r_id r)) rows →
          omap confirm_item_of edited_df
          = default_item <$> filter (λ r, opt_truthy (r_id r)) rows) as Hsome.
  { intros Hall. clear Hzip.
    induction Hread as [|r row rows' edited' Hrow _ IH]; [done|].
    apply Forall_cons in Hall as [[s Hs] Hall].
    rewrite filter_cons. csimpl.
    rewrite (confirm_item_of_read_back _ _ Hrow), (IH Hall).
    unfold untouched_item. rewrite Hs. simpl.
    destruct (truthy s); [|done]. by rewrite decide_True. }
  split_and!; [done|by apply Forall2_length in Hread|done|].
  intros Hall. rewrite Hsome.
  - rewrite (filter_all_true _ _ Hall). by rewrite length_fmap.
  - eapply Forall_impl; [exact Hall|]. intros r Hr. simpl in Hr.
    by destruct (r_id r).
Qed.

(** A statement of three rows, the second without id, read back by a
    pandas that puts NaN for the missing id: three items are sent. *)
Lemma save_untouched_review_table_witness :
  let st :=
    Statement (Some "s1")
      (Some [ImportedRow (Some "r1") None None (Some "5000") (Some "EXPENSE")
                         (Some "FUEL") None None;
             ImportedRow None None None (Some "70") (Some "EXPENSE")
                         (Some "FOOD") None None;
             ImportedRow (Some "r3") None None (Some "120.5") None
                         (Some "GIFTS") None None]) in
  let edited_df :=
    [EditedRow true (CellStr "r1") (CellStr "EXPENSE") (CellStr "FUEL");
     EditedRow true CellNaN (CellStr "EXPENSE") (CellStr "FOOD");
     EditedRow true (CellStr "r3") (CellStr "INCOME") (CellStr "MISC")] in
  commit_items edited_df
  = [ConfirmItem "r1" "EXPENSE" "FUEL" None;
     ConfirmItem "nan" "EXPENSE" "FOOD" None;
     ConfirmItem "r3" "INCOME" "MISC" None].
Proof.
  intros st edited_df.
  refine (eq_trans (proj1 (save_untouched_review_table st edited_df _)) _).
  - by repeat constructor.
  - reflexivity.
Defined.



(** ** The base URL of the API client *)

Lemma rstrip_slash_spec (s : string) :
  PyText.endswith (PyText.rstrip_slash s) "/" = false
  ∧ ∃ slashes,
      s = PyText.rstrip_slash s +:+ slashes
      ∧ PyText.rstrip_slash slashes = "".
Proof.
  induction s as [|c s (IHend & slashes & IHs & IHsl)].
  { split; [done|]. by exists "". }
  simpl. destruct (PyText.rstrip_slash s) as [|d r] eqn:Hr.
  - destruct (Ascii.eqb c "/") eqn:Hc.
    + apply Ascii.eqb_eq in Hc as ->. split; [done|].
      exists (String "/" s). split; [done|]. simpl. by rewrite Hr.
    + split.
      * rewrite PyTextFacts.endswith_cons. simpl. by rewrite Hc.
      * exists s. by split.
  - split.
    + rewrite PyTextFacts.endswith_cons, IHend, orb_false_r.
      apply String.eqb_neq. by intros [=].
    + exists slashes. split; [|done].
      change (String c (String d r) +:+ slashes)
        with (String c (String d r +:+ slashes)).
      by rewrite <- IHs.
Qed.

(** The base URL of a client never ends with a slash: it is the
    configured URL, or the default URL, without the slashes at its end;
    so a configured URL with one more slash at the end gives the same
    client and the same request URLs. *)
Theorem api_base_url_trailing_slashes (base_url env : option string) :
  let configured :=
    match base_url with Some b => b | None => default DEFAULT_BASE_URL env end in
  let base := api_client_base_url base_url env in
  PyText.endswith base "/" = false
  ∧ (∃ slashes, configured = base +:+ slashes
                ∧ PyText.rstrip_slash slashes = "")
  ∧ api_client_base_url (Some (configured +:+ "/")) env = base
  ∧ api_client_base_url None None = "http://localhost:4000/api"
  ∧ (∀ hustle_id statement_id,
       confirm_statement_url
         (api_client_base_url (Some (configured +:+ "/")) env)
         hustle_id statement_id
       = confirm_statement_url base hustle_id statement_id).
Proof.
  intros configured base.
  destruct (rstrip_slash_spec configured) as [Hend Hsl].
  assert (api_client_base_url (Some (configured +:+ "/")) env = base) as Heq.
  { unfold base, api_client_base_url. fold configured.
    clear. induction configured as [|c s IH]; [done|].
    change (String c s +:+ "/") with (String c (s +:+ "/")).
    simpl. rewrite IH. destruct (PyText.rstrip_slash s) eqn:Hs; [|done].
    done. }
  split_and!; [done|done|done|done|]. intros. by rewrite Heq.
Qed.

(** ** The employment type of a profile *)

(** When the profile form can be built, that is when the employment type
    of a non-empty profile is one of the five options or is missing or
    empty, [format_employment_tag] gives the label of the very option
    that the form selects. *)
Theorem employment_tag_of_selected_option (profile : gmap string json)
    (i : nat)
    (Hprofile : profile ≠ ∅)
    (Hindex : profile_employment_index profile = Some i) :
  format_employment_tag (Some profile)
  = ["Employee"; "Self-employed"; "Employee & Self-employed"; "Unemployed";
     "Informal / Hustle"] !! i
  ∧ i < 5.
Proof.
  unfold format_employment_tag, profile_employment_index in *.
  rewrite decide_False by done.
  destruct (profile_get_or profile "employmentType" "INFORMAL")
    as [| | |s]; [done..|].
  destruct (list_find (λ o, o = s) EMPLOYMENT_OPTIONS) as [[j o]|] eqn:Hfind;
    [|done].
  simpl in Hindex. simplify_eq.
  apply list_find_Some in Hfind as (Hlook & -> & _).
  unfold EMPLOYMENT_OPTIONS in Hlook.
  do 5 (destruct i as [|i];
          [simpl in Hlook; simplify_eq; split; [vm_compute; reflexivity|lia]|]).
  by simpl in Hlook.
Qed.

(** A profile whose employment type is SELF_EMPLOYED, and a profile
    without employment type. *)
Lemma employment_tag_of_selected_option_witness :
  format_employment_tag
    (Some {["employmentType" := JStr "SELF_EMPLOYED"]})
  = Some "Self-employed"
  ∧ format_employment_tag (Some {["fullName" := JStr "Ada"]})
    = Some "Informal / Hustle".
Proof.
  split.
  - refine (proj1 (employment_tag_of_selected_option
                     {["employmentType" := JStr "SELF_EMPLOYED"]} 1 _ eq_refl)).
    apply (bool_decide_unpack _). vm_compute. exact I.
  - refine (proj1 (employment_tag_of_selected_option
                     {["fullName" := JStr "Ada"]} 4 _ eq_refl)).
    apply (bool_decide_unpack _). vm_compute. exact I.
Defined.

(** ** Page functions on the session state *)

Ltac run_page :=
  unfold mbind, page_bind, mret, page_ret, say, get_state, set_auth,
    set_profile_data, set_hustles, app_show_api_error,
    show_api_error_events in *;
  simpl in *.

(** Membership of an event in an explicit list. *)
Ltac in_events :=
  simpl; repeat (first [apply list_elem_of_here|apply list_elem_of_further]).

(** Case analysis on the membership of an event in an explicit list. *)
Ltac event_cases H :=
  simpl in H;
  repeat (apply elem_of_cons in H as [H|H]; [try by simplify_eq|]);
  try by apply elem_of_nil in H.

(** The form that adds an entry by hand keeps the session state and
    sends at most one request.  It sends one only when the form was
    submitted with an amount that is not less than or equal to zero and
    a non-empty category, and then the request carries the fields of the
    form, with a null note for an empty one; a submitted form that fails
    this test only shows the error. *)
Theorem add_entry_validation (api : backend_api) (hustle_id : string)
    (token : option string) (inp : manual_inputs) (s : app_state) :
  let '(_, s', events) := add_entry api hustle_id token inp s in
  s' = s
  ∧ length (filter (λ e, is_api_call e) events) ≤ 1
  ∧ (∀ c, ACall c ∈ events →
       mi_added inp = true
       ∧ SFleb (mi_amount inp) PyFloat.zero = false
       ∧ mi_category inp ≠ ""
       ∧ c = CallAddTransaction hustle_id
               (TxPayload (mi_date inp) (mi_type inp) (mi_category inp)
                          (mi_amount inp) (or_none (mi_note inp)))
               token)
  ∧ (mi_added inp = true →
     SFleb (mi_amount inp) PyFloat.zero = true ∨ mi_category inp = "" →
     events = [AUi (StError "Category and a positive amount are required.")]).
Proof.
  unfold add_entry. destruct (mi_added inp); run_page.
  2:{ split_and!; [done|lia| |done]. intros c Hin. event_cases Hin. }
  destruct (SFleb (mi_amount inp) PyFloat.zero) eqn:Hle; simpl.
  { split_and!; [done|lia| |done]. intros c Hin. event_cases Hin. }
  destruct (mi_category inp) as [|ch cat] eqn:Hcat; simpl.
  { split_and!; [done|lia| |done]. intros c Hin. event_cases Hin. }
  destruct (api_add_transaction api _ _ _) as [[err details|text]|[]];
    [destruct (opt_truthy details)| |]; simpl;
    (split_and!; [done|lia| |by intros _ [|]]);
    intros c Hin; event_cases Hin.
Qed.

Lemma add_entry_validation_witness :
  let api :=
    BackendApi (λ _, inr ∅) (λ _ _, inl (ApiError "down" None))
               (λ _ _, inl (ApiError "down" None)) (λ _, inr [])
               (λ _ _, inl (ApiError "down" None)) (λ _ _ _, inr tt) in
  let inp := ManualInputs "2024-01-06" "EXPENSE" "" 
                          (S754_finite false 5497558138880000 (-40)) "" true in
  let s := AppState None None None None in
  (add_entry api "h1" (Some "tok") inp s).2
  = [AUi (StError "Category and a positive amount are required.")].
Proof.
  intros api inp s.
  pose proof (add_entry_validation api "h1" (Some "tok") inp s) as H.
  destruct (add_entry api "h1" (Some "tok") inp s) as [[u s'] events].
  destruct H as (_ & _ & _ & H). apply H; [reflexivity|by right].
Defined.

(** The profile is fetched at most once: whatever the first call of
    [load_profile_if_needed] did, a call that follows it sends nothing,
    shows nothing, leaves the session state as it is and returns the
    same profile, also when the first fetch failed.  Without a token
    nothing is sent and the result is [None]. *)
Theorem load_profile_cached (env_base_url : option string)
    (api : backend_api) (s : app_state) :
  let '(r1, s1, e1) := load_profile_if_needed env_base_url api s in
  let '(r2, s2, e2) := load_profile_if_needed env_base_url api s1 in
  r2 = r1 ∧ s2 = s1 ∧ e2 = []
  ∧ length (filter (λ e, is_api_call e) e1) ≤ 1
  ∧ (opt_truthy (ss_auth s ≫= access_token) = false → r1 = None ∧ e1 = [])
  ∧ (ss_profile_data s ≠ None → e1 = []).
Proof.
  unfold load_profile_if_needed, get_auth_state, get_client.
  destruct s as [client [[token refresh usr]|] cached hustles]; run_page.
  2:{ split_and!; done || lia. }
  destruct (opt_truthy token) eqn:Htok; simpl.
  2:{ rewrite Htok. simpl. split_and!; done || lia. }
  destruct client as [c|], cached as [p|]; simpl; rewrite ?Htok; simpl;
    try (split_and!; done || lia).
  all: destruct (api_get_profile api token) as [[err details|text]|data];
    [destruct (opt_truthy details)| |]; simpl;
    rewrite ?Htok; simpl; split_and!; done || lia.
Qed.

Lemma load_profile_cached_witness :
  let api :=
    BackendApi (λ _, inl (ApiError "Service unavailable" None))
               (λ _ _, inl (ApiError "down" None))
               (λ _ _, inl (ApiError "down" None)) (λ _, inr [])
               (λ _ _, inl (ApiError "down" None)) (λ _ _ _, inr tt) in
  let s := AppState None (Some (AuthState (Some "tok") None None)) None None in
  let s1 := (load_profile_if_needed None api s).1.2 in
  ss_profile_data s1 = Some None
  ∧ load_profile_if_needed None api s1 = (None, s1, []).
Proof.
  intros api s s1. split; [reflexivity|].
  pose proof (load_profile_cached None api s) as H.
  destruct (load_profile_if_needed None api s) as [[r1 s1'] e1] eqn:H1.
  subst s1. simpl.
  destruct (load_profile_if_needed None api s1') as [[r2 s2] e2].
  destruct H as (-> & -> & -> & _). by injection H1 as <- _ _.
Defined.

(** ** The account page *)

Section account_facts.
Variable env_base_url : option string.
Variable api : backend_api.

(** Logging out clears the token, the refresh token and the user and
    keeps the rest of the session, the cached profile and the cached
    hustles included.  After it [require_login] refuses with its two
    messages and [load_profile_if_needed] returns [None] without a
    request. *)
Theorem account_logout (inp : account_inputs) (s : app_state)
    (token : string) (refresh : option string) (u : user_info)
    (Hauth : ss_auth s = Some (AuthState (Some token) refresh (Some u)))
    (Htoken : token ≠ "")
    (Hclick : logout_clicked inp = true) :
  let '(r, s', events) := page_account env_base_url api inp s in
  r = Some tt
  ∧ ss_auth s' = Some (AuthState None None None)
  ∧ ss_profile_data s' = ss_profile_data s
  ∧ ss_hustles s' = ss_hustles s
  ∧ events = [AUi (StSuccess ("Logged in as " +:+ default "None" (u_email u)));
              AUi (StSuccess "Logged out.")]
  ∧ require_login s'
    = (false, s',
       [AUi (StWarning "You need to be logged in to use this feature.");
        AInfo "Use the 'Account' page in the sidebar to log in or register."])
  ∧ load_profile_if_needed env_base_url api s' = (None, s', []).
Proof.
  unfold page_account, require_login, load_profile_if_needed, get_auth_state,
    get_client.
  destruct s as [client auth cached hustles]. simpl in Hauth. subst auth.
  run_page. rewrite Hclick.
  assert (truthy token = true) as -> by (by destruct token).
  destruct client; simpl; by split_and!.
Qed.

(** When nobody is logged in, the account page sends credentials only
    from a pressed button whose email and password are both non-empty,
    and the login fields of the session change only by a successful
    response, to the values of that response; the cached profile and
    hustles are kept. *)
Theorem account_sign_in (inp : account_inputs) (s : app_state)
    (Hout : opt_truthy (ss_auth s ≫= access_token) = false) :
  let '(r, s', events) := page_account env_base_url api inp s in
  r = Some tt
  ∧ ss_profile_data s' = ss_profile_data s
  ∧ ss_hustles s' = ss_hustles s
  ∧ (∀ email password, ACall (CallLogin email password) ∈ events →
       login_clicked inp = true ∧ email = login_email inp
       ∧ password = login_password inp ∧ email ≠ "" ∧ password ≠ "")
  ∧ (∀ email password, ACall (CallRegister email password) ∈ events →
       register_clicked inp = true ∧ email = reg_email inp
       ∧ password = reg_password inp ∧ email ≠ "" ∧ password ≠ "")
  ∧ (ss_auth s' = Some (default (AuthState None None None) (ss_auth s))
     ∨ ∃ data,
         ss_auth s' = Some (AuthState (lr_accessToken data)
                                      (lr_refreshToken data) (lr_user data))
         ∧ ((ACall (CallLogin (login_email inp) (login_password inp)) ∈ events
             ∧ api_login api (login_email inp) (login_password inp) = inr data)
            ∨ (ACall (CallRegister (reg_email inp) (reg_password inp))
                 ∈ events
               ∧ api_register api (reg_email inp) (reg_password inp)
                 = inr data))).
Proof.
  unfold page_account, sign_in, get_auth_state, get_client.
  destruct s as [client auth cached hustles].
  assert (opt_truthy
            (access_token (default (AuthState None None None) auth)) = false)
    as Hout' by (by destruct auth).
  destruct inp as [lo le lp lc re rp rc]. simpl in *.
  destruct auth as [a|], client as [c|]; run_page; rewrite ?Hout'; simpl.
  all: destruct lc, rc; simpl.
  all: repeat
         match goal with
         | |- context [truthy ?x] => destruct x eqn:?; simpl
         | |- context [api_login api ?e ?p] =>
             destruct (api_login api e p) as [[? [?|]|?]|?] eqn:?; simpl
         | |- context [api_register api ?e ?p] =>
             destruct (api_register api e p) as [[? [?|]|?]|?] eqn:?; simpl
         | |- context [opt_truthy (Some ?x)] => destruct x eqn:?; simpl
         end.
  all: split_and!; try done;
    try (intros ? ? Hin; event_cases Hin);
    try (by left);
    right; eexists; (split; [reflexivity|]);
    first [solve [left; split; [in_events|done]]
          |solve [right; split; [in_events|done]]].
Qed.

(** A successful login whose response has a token but no user leaves a
    session on which the account page raises at its next run, whatever
    the widgets hold. *)
Theorem account_page_raises_without_user (inp next : account_inputs)
    (s : app_state) (data : login_response)
    (Hout : opt_truthy (ss_auth s ≫= access_token) = false)
    (Hclick : login_clicked inp = true)
    (Hreg : register_clicked inp = false)
    (Hemail : login_email inp ≠ "") (Hpassword : login_password inp ≠ "")
    (Hlogin : api_login api (login_email inp) (login_password inp) = inr data)
    (Htoken : opt_truthy (lr_accessToken data) = true)
    (Huser : lr_user data = None) :
  let s' := (page_account env_base_url api inp s).1.2 in
  ss_auth s' = Some (AuthState (lr_accessToken data) (lr_refreshToken data) None)
  ∧ (page_account env_base_url api next s').1.1 = None
  ∧ (page_account env_base_url api next s').2 = [].
Proof.
  unfold page_account, sign_in, get_auth_state, get_client.
  destruct s as [client auth cached hustles].
  assert (opt_truthy
            (access_token (default (AuthState None None None) auth)) = false)
    as Hout' by (by destruct auth).
  destruct data as [tok refresh usr]. simpl in *. subst usr.
  assert (truthy (login_email inp) = true) as He
    by (by destruct (login_email inp)).
  assert (truthy (login_password inp) = true) as Hp
    by (by destruct (login_password inp)).
  destruct auth as [a|], client as [c|]; run_page;
    rewrite ?Hout', ?Hclick, ?Hreg, ?He, ?Hp; simpl;
    rewrite ?Hlogin; simpl; rewrite ?Htoken; by simpl.
Qed.

End account_facts.

Lemma account_logout_witness :
  let s :=
    AppState (Some "http://localhost:4000/api")
             (Some (AuthState (Some "tok") None
                              (Some (UserInfo (Some "ada@example.com")))))
             (Some (Some {["fullName" := JStr "Ada"]})) None in
  let inp := AccountInputs true "" "" false "" "" false in
  ss_auth (page_account None sample_api inp s).1.2
  = Some (AuthState None None None)
  ∧ ss_profile_data (page_account None sample_api inp s).1.2
    = Some (Some {["fullName" := JStr "Ada"]}).
Proof.
  intros s inp.
  pose proof (account_logout None sample_api inp s "tok" None
                (UserInfo (Some "ada@example.com")) eq_refl
                ltac:(discriminate) eq_refl) as H.
  destruct (page_account None sample_api inp s) as [[r s'] events].
  destruct H as (_ & Hauth & Hprofile & _). by split.
Defined.

Lemma account_sign_in_witness :
  let s := AppState None None None None in
  let inp := AccountInputs false "ada@example.com" "" true "" "" false in
  ACall (CallLogin "ada@example.com" "")
    ∉ (page_account None sample_api inp s).2.
Proof.
  intros s inp Hin.
  pose proof (account_sign_in None sample_api inp s eq_refl) as H.
  destruct (page_account None sample_api inp s) as [[r s'] events].
  destruct H as (_ & _ & _ & H & _).
  by destruct (H _ _ Hin) as (_ & _ & _ & _ & ?).
Defined.

Lemma account_page_raises_without_user_witness :
  let s := AppState None None None None in
  let inp := AccountInputs false "ada@example.com" "secret" true "" "" false in
  let s' := (page_account None sample_api inp s).1.2 in
  (page_account None sample_api inp s').1.1 = None.
Proof.
  intros s inp s'.
  refine (proj1 (proj2 (account_page_raises_without_user None sample_api inp
                          inp s (LoginResponse (Some "tok") (Some "ref") None)
                          eq_refl eq_refl eq_refl _ _ eq_refl eq_refl
                          eq_refl))); discriminate.
Defined.

(** ** The list of hustles *)

Section hustle_facts.
Variable env_base_url : option string.
Variable api : backend_api.

(** The profile and the list of hustles are fetched once: a run of the
    first part of the hustle page that follows another run, and in which
    the form that creates a hustle is not submitted, sends no request and
    leaves the session state as it is, also when the first run could not
    fetch the list. *)
Theorem hustles_loaded_once (inp1 inp2 : create_inputs) (s : app_state)
    (Hidle : ci_created inp2 = false) :
  let '(r1, s1, e1) := page_hustle_hustles env_base_url api inp1 s in
  let '(r2, s2, e2) := page_hustle_hustles env_base_url api inp2 s1 in
  s2 = s1 ∧ Forall (λ e, is_api_call e = false) e2.
Proof.
  unfold page_hustle_hustles, require_login, load_profile_if_needed,
    get_auth_state, get_client.
  destruct s as [client auth cached hustles].
  destruct inp1 as [n1 sec1 d1 c1], inp2 as [n2 sec2 d2 c2].
  simpl in Hidle. subst c2.
  destruct auth as [[[[|tc token]|] refresh usr]|]; run_page;
    try (split; [done|by repeat constructor]).
  destruct client as [c|], cached as [p|], hustles as [[|h hs]|], c1,
    n1 as [|ch n1]; simpl.
  all: repeat
         match goal with
         | |- context [api_get_profile api ?t] =>
             destruct (api_get_profile api t) as [[? [?|]|?]|?]; simpl
         | |- context [api_list_hustles api ?t] =>
             destruct (api_list_hustles api t) as [[? [?|]|?]|[|? ?]]; simpl
         | |- context [api_create_hustle api ?p ?t] =>
             destruct (api_create_hustle api p t) as [[? [?|]|?]|?]; simpl
         end.
  all: split; [done|by repeat constructor].
Qed.

(** With a logged-in session that holds the profile and the hustles, a
    submitted form with a non-empty name sends one request with the
    name and with null for an empty sector or description; on success
    the new hustle is put before the hustles held, which keep their
    order, and on failure the hustles are kept.  A form without a name
    sends nothing. *)
Theorem hustle_created_first (inp : create_inputs) (s : app_state)
    (a : auth_state) (p : option (gmap string json)) (hs : list hustle)
    (Hauth : ss_auth s = Some a)
    (Htoken : opt_truthy (access_token a) = true)
    (Hprofile : ss_profile_data s = Some p)
    (Hhustles : ss_hustles s = Some hs)
    (Hcreated : ci_created inp = true) :
  let payload :=
    HustlePayload (ci_name inp) (or_none (ci_sector inp))
                  (or_none (ci_description inp)) in
  let '(r, s', events) := page_hustle_hustles env_base_url api inp s in
  ss_auth s' = ss_auth s ∧ ss_profile_data s' = ss_profile_data s
  ∧ (ci_name inp = "" →
     ss_hustles s' = Some hs
     ∧ Forall (λ e, is_api_call e = false) events)
  ∧ (ci_name inp ≠ "" →
     filter (λ e, is_api_call e) events
     = [ACall (CallCreateHustle payload (access_token a))]
     ∧ match api_create_hustle api payload (access_token a) with
       | inr h => ss_hustles s' = Some (h :: hs) ∧ r = Some (h :: hs)
       | inl _ => ss_hustles s' = Some hs
       end).
Proof.
  unfold page_hustle_hustles, require_login, load_profile_if_needed,
    get_auth_state, get_client.
  destruct s as [client auth cached hustles]. simpl in *. subst.
  destruct a as [[[|tc token]|] refresh usr]; try done.
  destruct inp as [name sector description created]. simpl in *. subst.
  destruct client as [c|], name as [|ch name]; run_page.
  all: destruct (api_create_hustle api _ _) as [[e [d|]|text]|h]; simpl;
    try (destruct (truthy d); simpl); try (destruct hs; simpl).
  all: split_and!; try done;
    try (intros Hne; by destruct Hne);
    try (intros _; split; [done|by repeat constructor]);
    try (intros _; by split).
Qed.

End hustle_facts.

Lemma hustles_loaded_once_witness :
  let s := AppState None (Some (AuthState (Some "tok") None None)) None None in
  let inp := CreateInputs "" "" "" false in
  let s1 := (page_hustle_hustles None sample_api inp s).1.2 in
  (page_hustle_hustles None sample_api inp s1).1.2 = s1.
Proof.
  intros s inp s1.
  pose proof (hustles_loaded_once None sample_api inp inp s eq_refl) as H.
  destruct (page_hustle_hustles None sample_api inp s) as [[r1 s1'] e1] eqn:H1.
  subst s1. simpl.
  destruct (page_hustle_hustles None sample_api inp s1') as [[r2 s2] e2].
  by destruct H as [-> _].
Defined.

Lemma hustle_created_first_witness :
  let s :=
    AppState (Some "http://localhost:4000/api")
             (Some (AuthState (Some "tok") None None)) (Some None)
             (Some [Hustle "h1" "POS stand" None]) in
  let inp := CreateInputs "Hair" "" "Salon" true in
  ss_hustles (page_hustle_hustles None sample_api inp s).1.2
  = Some [Hustle "h2" "Hair" None; Hustle "h1" "POS stand" None].
Proof.
  intros s inp.
  pose proof (hustle_created_first None sample_api inp s _ _ _
                eq_refl eq_refl eq_refl eq_refl eq_refl) as H.
  destruct (page_hustle_hustles None sample_api inp s) as [[r s'] events].
  destruct H as (_ & _ & _ & H).
  destruct (H ltac:(discriminate)) as [_ H2]. simpl in H2.
  exact (proj1 H2).
Defined.

